(** * Checkout, payment-gateway client and webhook reconciliation

    A shallow embedding of the order controller ([checkout],
    [rollbackStock], [handlePaymentNotification]), the Midtrans service
    ([createTransactionWithRetry], [verifySignature]) and the webhook
    middleware ([authenticateWebhook]) of the e-commerce API, together with
    the properties of these functions.

    Modelling conventions.
    - The relational store is a record of tables.  Tables with a primary key
      that the code looks rows up by ([Product.findByPk], [User.findByPk])
      are finite maps keyed by the id; tables the code scans with a [where]
      clause are lists of rows in table order.
    - An [await]ed storage call either returns or throws.  The calls of the
      webhook handler take their outcome from a [Faults] record; a thrown
      error is the [Threw] case of [Result].
    - The tables of the store hold committed rows.  A write issued under a
      transaction handle reaches them when the handle is committed.
      [checkout] ends its handle on every path, with [commit()] or with
      [rollback()]: its writes are applied as they are issued and a rollback
      gives back the store the call started from.  The handle
      [handlePaymentNotification] opens for [rollbackStock] is neither
      committed nor rolled back by the source: the rows saved under it never
      reach the tables, and the store keeps the handle with these rows in
      [handles].
    - An open handle holds the lock of every row saved under it.  A write
      to such a row under another handle waits for the lock and, the wait
      timing out, throws.  The connection an open handle keeps from the pool
      is not in the model.
    - JavaScript numbers that hold ids, the clock and retry counters are [N]
      or [nat]; stock and quantities are [Z]; money computed by the code is
      an IEEE 754 double ([float]).  The [DECIMAL(10,2)] column [price] is
      its value in hundredths, a [Z]; the column [totalAmount], written from
      a double, is a [Decimal]. *)

From Stdlib Require Import ZArith NArith String Ascii List Lia Floats.
From Stdlib Require Import DecimalString DecimalN DecimalFacts.
From stdpp Require Import gmap strings list.

Local Open Scope string_scope.

(** ** Thrown errors *)

(** The outcome of a call that may throw [new Error(message)]. *)
Inductive Result (A : Type) : Type :=
| Ok (a : A)
| Threw (message : string).
Arguments Ok {A} a.
Arguments Threw {A} message.

Definition bind {A B : Type} (r : Result A) (k : A -> Result B) : Result B :=
  match r with
  | Ok a => k a
  | Threw e => Threw e
  end.

Notation "'do' x <- r ; k" := (bind r (fun x => k))
  (at level 10, x pattern, r at level 100, k at level 200).

(** ** Rows *)

Inductive OrderStatus : Set := pending | completed | failed.

(** [new Date(s)]: the parsed time is kept as the text it was built from. *)
Inductive Date : Set := new_Date (s : string).

Module User.
Record t : Set := mk { id : N; name : string; email : string }.
End User.

Module Product.
(** [price] is the [DECIMAL(10,2)] column in hundredths. *)
Record t : Set := mk { id : N; name : string; price : Z; stock : Z }.

Definition set_stock (p : t) (s : Z) : t :=
  {| id := id p; name := name p; price := price p; stock := s |}.
End Product.

Module Cart.
Record t : Set := mk { id : N; userId : N }.
End Cart.

Module CartItem.
Record t : Set := mk { id : N; cartId : N; productId : N; quantity : Z }.
End CartItem.

(** One entry of the [orderItems] snapshot.  The column holds
    [JSON.stringify] of the array and [rollbackStock] reads it back with
    [JSON.parse]; the model keeps the array itself. *)
Module OrderItem.
Record t : Set := mk { productId : N; name : string; price : Z; quantity : Z }.
End OrderItem.

(** What a [DECIMAL(10,2)] column holds after the JavaScript number
    [written] was stored in it: the database rounds the number to two
    decimals.  The rounding is not computed; the column's value is kept as
    the number it was made from. *)
Inductive Decimal : Set := DECIMAL_10_2 (written : float).

Definition written (d : Decimal) : float :=
  match d with DECIMAL_10_2 x => x end.

(** An order row.  The [createdAt] and [updatedAt] stamps that Sequelize
    keeps by itself are not part of the model. *)
Module Order.
Record t : Set := mk {
  id : N;
  userId : N;
  totalAmount : Decimal;
  status : OrderStatus;
  midtransPaymentId : option string;
  orderItems : list OrderItem.t;
  paymentType : option string;
  transactionTime : option Date;
  settlementTime : option Date
}.

Definition set_status (o : t) (s : OrderStatus) : t :=
  mk (id o) (userId o) (totalAmount o) s (midtransPaymentId o)
     (orderItems o) (paymentType o) (transactionTime o) (settlementTime o).

Definition set_paymentType (o : t) (v : string) : t :=
  mk (id o) (userId o) (totalAmount o) (status o) (midtransPaymentId o)
     (orderItems o) (Some v) (transactionTime o) (settlementTime o).

Definition set_transactionTime (o : t) (v : Date) : t :=
  mk (id o) (userId o) (totalAmount o) (status o) (midtransPaymentId o)
     (orderItems o) (paymentType o) (Some v) (settlementTime o).

Definition set_settlementTime (o : t) (v : Date) : t :=
  mk (id o) (userId o) (totalAmount o) (status o) (midtransPaymentId o)
     (orderItems o) (paymentType o) (transactionTime o) (Some v).
End Order.

(** ** The store *)

(** A transaction handle that was opened and never ended, with the product
    rows saved under it, in the order of the saves. *)
Definition Handle : Set := list Product.t.

Record Store : Type := mkStore {
  users : gmap N User.t;
  products : gmap N Product.t;
  carts : list Cart.t;
  cartItems : list CartItem.t;
  orders : list Order.t;
  handles : list Handle
}.

Definition with_products (st : Store) (ps : gmap N Product.t) : Store :=
  mkStore (users st) ps (carts st) (cartItems st) (orders st) (handles st).

Definition with_cartItems (st : Store) (cis : list CartItem.t) : Store :=
  mkStore (users st) (products st) (carts st) cis (orders st) (handles st).

Definition with_orders (st : Store) (os : list Order.t) : Store :=
  mkStore (users st) (products st) (carts st) (cartItems st) os (handles st).

Definition with_handles (st : Store) (hs : list Handle) : Store :=
  mkStore (users st) (products st) (carts st) (cartItems st) (orders st) hs.

(** The row of product [id] is locked by one of the open handles [hs]. *)
Definition locked (hs : list Handle) (id : N) : bool :=
  existsb (existsb (fun p => N.eqb (Product.id p) id)) hs.

Definition lock_wait_timeout : string :=
  "Lock wait timeout exceeded; try restarting transaction".

(** ** HTTP responses *)

Inductive Body : Type :=
| Message (message : string)
| OrderCreated (id : N) (orderId : string) (totalAmount : float)
    (status : OrderStatus) (token redirect_url : string).

Record Response : Type := mkResponse { res_status : N; res_body : Body }.

(** [res.status(c).json({ message })] *)
Definition json_message (c : N) (m : string) : Response :=
  mkResponse c (Message m).

(** ** Request bodies of the webhook

    A field of [req.body] is absent ([None]) or a string.  The field
    [signature_key], on which the middleware calls a string method, is a
    [Field]: it may also hold a value that is not a string. *)

Inductive Field : Set :=
| NoValue            (* absent, [null], [0], [false] *)
| Text (s : string)
| NonText.           (* a non-zero number, [true], an array, an object *)

Record Notification : Set := mkNotification {
  order_id : option string;
  status_code : option string;
  gross_amount : option string;
  signature_key : Field;
  transaction_status : option string;
  fraud_status : option string;
  payment_type : option string;
  transaction_time : option string;
  settlement_time : option string
}.

(** JavaScript truthiness of such a field: absent and [''] are falsy. *)
Definition truthy (v : option string) : bool :=
  match v with
  | Some s => negb (String.eqb s "")
  | None => false
  end.

Definition truthy_field (v : Field) : bool :=
  match v with
  | NoValue => false
  | Text s => negb (String.eqb s "")
  | NonText => true
  end.

(** [v === 'lit'] *)
Definition strict_eq (v : option string) (lit : string) : bool :=
  match v with
  | Some s => String.eqb s lit
  | None => false
  end.

(** The text a template literal puts for a field: [undefined] prints as
    such. *)
Definition template (v : option string) : string :=
  match v with
  | Some s => s
  | None => "undefined"
  end.

(** ** Numbers in template literals

    [`${n}`] for a non-negative integer is its decimal numeral. *)

Definition string_of_N (n : N) : string :=
  NilZero.string_of_uint (N.to_uint n).

Definition string_of_nat (n : nat) : string :=
  NilZero.string_of_uint (Nat.to_uint n).

(** ** Midtrans service *)

(** What [snap.createTransaction] can throw: a transient failure (network,
    timeout, 5xx) or the gateway's definitive rejection of the request
    (4xx). *)
Inductive SnapErrorKind : Set := Transient | Definitive.

Record MidtransPaymentResponse : Set :=
  mkPayment { token : string; redirect_url : string }.

Inductive SnapOutcome : Set :=
| SnapOk (r : MidtransPaymentResponse)
| SnapErr (kind : SnapErrorKind) (message : string).

(** The gateway as seen by one call of [createTransactionWithRetry]: the
    outcome of its attempt number [i], counted from 0. *)
Definition Snap : Set := nat -> SnapOutcome.

(** What the client does that the outside can see. *)
Inductive GatewayEvent : Set :=
| Call (i : nat)
| Sleep (ms : Z).

(** [Math.min(1000 * Math.pow(2, i), 5000)] *)
Definition delay (i : nat) : Z := Z.min (1000 * 2 ^ Z.of_nat i) 5000.

(** The [for (let i = 0; i < maxRetries; i++)] loop from index [i] on, with
    [n = maxRetries - i] iterations left. *)
Fixpoint retry_loop (snap : Snap) (maxRetries : nat) (n : nat) (i : nat)
  : Result MidtransPaymentResponse * list GatewayEvent :=
  match n with
  | O => (Threw "Failed to create payment transaction", [])
  | S n' =>
      match snap i with
      | SnapOk r =>
          (Ok (mkPayment (token r) (redirect_url r)), [Call i])
      | SnapErr _ message =>
          if Nat.eqb i (maxRetries - 1) then
            (Threw ("Failed to create payment transaction after "
                    +:+ string_of_nat maxRetries +:+ " retries: " +:+ message),
             [Call i])
          else
            let '(r, evs) := retry_loop snap maxRetries n' (S i) in
            (r, Call i :: Sleep (delay i) :: evs)
      end
  end.

Definition createTransactionWithRetry (snap : Snap) (maxRetries : nat)
  : Result MidtransPaymentResponse * list GatewayEvent :=
  retry_loop snap maxRetries maxRetries 0.

(** The default value of the [maxRetries] parameter. *)
Definition default_maxRetries : nat := 3.

Section WebhookAuth.
(** [crypto.createHash('sha512').update(s).digest('hex')] and the
    [MIDTRANS_SERVER_KEY] of the environment. *)
Variable sha512_hex : string -> string.
Variable MIDTRANS_SERVER_KEY : string.

(** [hash === signatureKey]: a value that is not a string is not equal to
    the hash. *)
Definition verifySignature
  (orderId statusCode grossAmount : string) (signatureKey : Field) : bool :=
  let hash :=
    sha512_hex (orderId +:+ statusCode +:+ grossAmount +:+ MIDTRANS_SERVER_KEY) in
  match signatureKey with
  | Text s => String.eqb hash s
  | _ => false
  end.

(** [signature_key.substring(0, 20)]: only a string has the method; on
    another value the call throws a [TypeError]. *)
Definition substring_0_20 (v : Field) : Result string :=
  match v with
  | Text s => Ok (String.substring 0 20 s)
  | _ => Threw "signature_key.substring is not a function"
  end.

(** A middleware either answers the request or calls [next()]. *)
Inductive Middleware : Type :=
| Respond (r : Response)
| Next.

(** [authenticateWebhook]: the [catch] around the whole body answers what
    is thrown inside it with status 500.  The one call that can throw is the
    [substring] of the warning logged before the 401 answer. *)
Definition authenticateWebhook (body : Notification) : Middleware :=
  if negb (truthy (order_id body)) || negb (truthy (status_code body))
     || negb (truthy (gross_amount body))
     || negb (truthy_field (signature_key body))
  then Respond (json_message 400 "Missing required webhook fields")
  else
    let isValidSignature :=
      verifySignature (template (order_id body)) (template (status_code body))
        (template (gross_amount body)) (signature_key body) in
    if negb isValidSignature then
      match substring_0_20 (signature_key body) with
      | Threw _ => Respond (json_message 500 "Webhook authentication failed")
      | Ok _ =>
          Respond
            (json_message 401 "Invalid signature - unauthorized webhook request")
      end
    else Next.
End WebhookAuth.

(** ** Order controller *)

(** Storage calls of the webhook handler that throw, whatever makes them
    throw: the database is down, no connection of the pool is free, the
    database refuses a value (a time of the notification that is no date,
    for [order.save()]). *)
Record Faults : Type := mkFaults {
  Order_findOne_throws : bool;
  sequelize_transaction_throws : bool;
  Product_findByPk_throws : N -> bool;
  Product_save_throws : N -> bool;
  Order_save_throws : bool
}.

Definition no_faults : Faults :=
  mkFaults false false (fun _ => false) (fun _ => false) false.

Definition storage_error : string := "storage failure".

(** The body of the [for (const item of items)] loop of [rollbackStock].
    [Product.findByPk] is called without the handle and reads the committed
    row from [ps]; [product.save({ transaction })] puts the raised row under
    the handle, after the rows [saved] under it so far, unless one of the
    handles [hs] that were open before holds the lock of the row.  An error
    thrown by [findByPk] or [save] leaves the loop; the rows saved before it
    stay under the handle. *)
Fixpoint rollbackStock_loop (fl : Faults) (items : list OrderItem.t)
    (ps : gmap N Product.t) (hs : list Handle) (saved : Handle)
  : Result unit * Handle :=
  match items with
  | [] => (Ok tt, saved)
  | item :: rest =>
      let pid := OrderItem.productId item in
      if Product_findByPk_throws fl pid then (Threw storage_error, saved)
      else
        match ps !! pid with
        | Some product =>
            let product' :=
              Product.set_stock product
                (Product.stock product + OrderItem.quantity item)%Z in
            if Product_save_throws fl pid then (Threw storage_error, saved)
            else if locked hs (Product.id product) then
              (Threw lock_wait_timeout, saved)
            else rollbackStock_loop fl rest ps hs (saved ++ [product'])%list
        | None => rollbackStock_loop fl rest ps hs saved
        end
  end.

(** [rollbackStock]: the [try] block around the loop catches whatever the
    loop throws and logs it; the function itself never throws.  The handle
    it is given is the one its caller has just opened; nothing ends it, so
    the tables stay as they are and the handle stays open. *)
Definition rollbackStock (fl : Faults) (orderItems : list OrderItem.t)
    (st : Store) : Store :=
  with_handles st
    (handles st
     ++ [snd (rollbackStock_loop fl orderItems (products st) (handles st)
                [])])%list.

(** [Order.findOne({ where: { midtransPaymentId: order_id } })]: the first
    row in table order with that reference.  Sequelize refuses an
    [undefined] value in a [where] clause by throwing. *)
Definition ref_matches (ref : string) (o : Order.t) : bool :=
  match Order.midtransPaymentId o with
  | Some r => String.eqb r ref
  | None => false
  end.

Definition Order_findOne (fl : Faults) (ref : option string) (st : Store)
  : Result (option Order.t) :=
  if Order_findOne_throws fl then Threw storage_error
  else
    match ref with
    | None => Threw "WHERE parameter has invalid undefined value"
    | Some r => Ok (List.find (ref_matches r) (orders st))
    end.

(** [order.save()]: the row with the instance's primary key takes the
    instance's attributes. *)
Definition put_row (order : Order.t) (o : Order.t) : Order.t :=
  if N.eqb (Order.id o) (Order.id order) then order else o.

Definition Order_save (fl : Faults) (order : Order.t) (st : Store)
  : Result Store :=
  if Order_save_throws fl then Threw storage_error
  else Ok (with_orders st (List.map (put_row order) (orders st))).

Definition sequelize_transaction (fl : Faults) : Result unit :=
  if sequelize_transaction_throws fl then Threw storage_error else Ok tt.

(** The status chain of [handlePaymentNotification]: the value of
    [orderStatus] after the [if] / [else if] cascade and the store after the
    stock rollback of its last branch. *)
Definition status_cascade (fl : Faults) (body : Notification)
    (order : Order.t) (st : Store) : Result (OrderStatus * Store) :=
  let orderStatus := pending in
  if strict_eq (transaction_status body) "capture" then
    if strict_eq (fraud_status body) "challenge" then Ok (pending, st)
    else if strict_eq (fraud_status body) "accept" then Ok (completed, st)
    else Ok (orderStatus, st)
  else if strict_eq (transaction_status body) "settlement" then
    Ok (completed, st)
  else if strict_eq (transaction_status body) "pending" then
    Ok (pending, st)
  else if strict_eq (transaction_status body) "cancel"
          || strict_eq (transaction_status body) "deny"
          || strict_eq (transaction_status body) "expire" then
    do _ <- sequelize_transaction fl;
    Ok (failed, rollbackStock fl (Order.orderItems order) st)
  else Ok (orderStatus, st).

(** The assignments between the cascade and [order.save()]. *)
Definition update_order (body : Notification) (orderStatus : OrderStatus)
    (order : Order.t) : Order.t :=
  let order := Order.set_status order orderStatus in
  let order :=
    match payment_type body with
    | Some v => if truthy (Some v) then Order.set_paymentType order v else order
    | None => order
    end in
  let order :=
    match transaction_time body with
    | Some v =>
        if truthy (Some v) then Order.set_transactionTime order (new_Date v)
        else order
    | None => order
    end in
  match settlement_time body with
  | Some v =>
      if truthy (Some v) then Order.set_settlementTime order (new_Date v)
      else order
  | None => order
  end.

Definition server_error_notification : Response :=
  json_message 500 "Server error processing notification".

(** [handlePaymentNotification]: every error thrown inside the [try] block
    is answered by the [catch] with status 500; what was done to the store
    before the error stays done. *)
Definition handlePaymentNotification (fl : Faults) (body : Notification)
    (st : Store) : Response * Store :=
  match Order_findOne fl (order_id body) st with
  | Threw _ => (server_error_notification, st)
  | Ok None => (json_message 404 "Order not found", st)
  | Ok (Some order) =>
      match status_cascade fl body order st with
      | Threw _ => (server_error_notification, st)
      | Ok (orderStatus, st1) =>
          match Order_save fl (update_order body orderStatus order) st1 with
          | Threw _ => (server_error_notification, st1)
          | Ok st2 =>
              (json_message 200 "Notification processed successfully", st2)
          end
      end
  end.

(** [router.post('/webhook', authenticateWebhook, handlePaymentNotification)] *)
Definition webhook (sha512_hex : string -> string) (MIDTRANS_SERVER_KEY : string)
    (fl : Faults) (body : Notification) (st : Store) : Response * Store :=
  match authenticateWebhook sha512_hex MIDTRANS_SERVER_KEY body with
  | Respond r => (r, st)
  | Next => handlePaymentNotification fl body st
  end.

(** *** Money as the code computes it *)

(** The JavaScript number holding the integer [z]; exact below 2^53 in
    absolute value, which covers the [INTEGER] and [DECIMAL(10,2)] columns. *)
Definition float_of_Z (z : Z) : float :=
  if (z <? 0)%Z then PrimFloat.opp (PrimFloat.of_uint63 (Uint63.of_Z (- z)))
  else PrimFloat.of_uint63 (Uint63.of_Z z).

(** [parseFloat(product.price)]: Sequelize hands a [DECIMAL(10,2)] over as
    its decimal text; [parseFloat] gives the double nearest to it, which is
    the correctly rounded quotient of the hundredths by 100. *)
Definition parseFloat (price : Z) : float :=
  PrimFloat.div (float_of_Z price) (float_of_Z 100).

(** *** Checkout *)

(** A cart item with its eagerly loaded [product] ([null] when the join
    finds no product row). *)
Record CartLine : Set := mkLine {
  item : CartItem.t;
  product : option Product.t
}.

(** [Cart.findOne({ where: { userId }, include: [items -> product] })] *)
Definition Cart_findOne (userId : N) (st : Store)
  : option (Cart.t * list CartLine) :=
  match List.find (fun c => N.eqb (Cart.userId c) userId) (carts st) with
  | None => None
  | Some cart =>
      Some (cart,
            List.map
              (fun it => mkLine it (products st !! CartItem.productId it))
              (List.filter
                 (fun it => N.eqb (CartItem.cartId it) (Cart.id cart))
                 (cartItems st)))
  end.

(** [Product.update({ stock: literal(`stock - ${q}`) }, { where: { id },
    transaction })]: the update waits for the lock of the row when an open
    handle holds it. *)
Definition decremented (id : N) (q : Z) (st : Store) : Store :=
  with_products st
    (alter (fun p => Product.set_stock p (Product.stock p - q)%Z) id
       (products st)).

Definition Product_decrement (id : N) (q : Z) (st : Store) : Result Store :=
  if locked (handles st) id then Threw lock_wait_timeout
  else Ok (decremented id q st).

Definition snapshot_of (p : Product.t) (q : Z) : OrderItem.t :=
  OrderItem.mk (Product.id p) (Product.name p) (Product.price p) q.

(** How the [for (const item of items)] loop of [checkout] ends: it runs to
    its end, or it answers the request and returns. *)
Inductive LoopExit : Type :=
| LoopDone (st : Store) (totalAmount : float) (orderItems : list OrderItem.t)
| LoopReturn (r : Response).

(** The loop with its three accumulators ([midtransItems], which only goes
    into the gateway request, is left out).  Reading [product.stock] of a
    [null] product throws a [TypeError]; what [Product.update] throws leaves
    the loop as well. *)
Fixpoint checkout_loop (items : list CartLine) (st : Store)
    (totalAmount : float) (orderItems : list OrderItem.t) : Result LoopExit :=
  match items with
  | [] => Ok (LoopDone st totalAmount orderItems)
  | line :: rest =>
      match product line with
      | None => Threw "Cannot read properties of null (reading 'stock')"
      | Some product =>
          let quantity := CartItem.quantity (item line) in
          if (Product.stock product <? quantity)%Z then
            Ok (LoopReturn
                  (json_message 400
                     ("Insufficient stock for " +:+ Product.name product)))
          else
            match Product_decrement (Product.id product) quantity st with
            | Threw e => Threw e
            | Ok st =>
                let itemTotal :=
                  PrimFloat.mul (parseFloat (Product.price product))
                    (float_of_Z quantity) in
                checkout_loop rest st (PrimFloat.add totalAmount itemTotal)
                  (orderItems ++ [snapshot_of product quantity])
            end
      end
  end.

(** The largest value of a [DECIMAL(10,2)] column is 99999999.99: the
    database refuses a number that rounds above it, which is one from
    99999999.995 on. *)
Definition DECIMAL_10_2_overflow (x : float) : bool :=
  PrimFloat.leb (PrimFloat.div (float_of_Z 99999999995) (float_of_Z 1000)) x.

(** [Order.create({ userId, totalAmount, status: 'pending',
    midtransPaymentId, orderItems }, { transaction })]: [newId] is the key
    the database gives the row. *)
Definition Order_create (newId userId : N) (totalAmount : float)
    (midtransPaymentId : string) (orderItems : list OrderItem.t) (st : Store)
  : Result (Order.t * Store) :=
  if DECIMAL_10_2_overflow totalAmount then
    Threw "Out of range value for column 'totalAmount'"
  else
    let order :=
      Order.mk newId userId (DECIMAL_10_2 totalAmount) pending
        (Some midtransPaymentId) orderItems None None None in
    Ok (order, with_orders st (orders st ++ [order])%list).

(** [`ORDER-${Date.now()}-${userId}`] *)
Definition make_orderId (now userId : N) : string :=
  "ORDER-" +:+ string_of_N now +:+ "-" +:+ string_of_N userId.

Definition server_error_checkout : Response :=
  json_message 500 "Server error during checkout".

(** [checkout] for the authenticated customer [userId].  [now] is what
    [Date.now()] returns, [newId] the key the database gives the new order
    row, [snap] the gateway.  Every path that ends in
    [transaction.rollback()] gives back the store the call started from.
    The answer carries [order.totalAmount] of the instance [Order.create]
    returns, which is the number it was given.  The storage calls that can
    throw here are [Product.update], on a locked row, and [Order.create], on
    a total the column does not take; the database is taken to answer the
    others. *)
Definition checkout (snap : Snap) (now newId userId : N) (st : Store)
  : Response * Store :=
  match users st !! userId with
  | None => (json_message 404 "User not found", st)
  | Some user =>
      match Cart_findOne userId st with
      | None => (json_message 400 "Cart is empty", st)
      | Some (cart, []) => (json_message 400 "Cart is empty", st)
      | Some (cart, items) =>
          match checkout_loop items st (float_of_Z 0) [] with
          | Threw _ => (server_error_checkout, st)
          | Ok (LoopReturn r) => (r, st)
          | Ok (LoopDone st1 totalAmount orderItems) =>
              let orderId := make_orderId now userId in
              match Order_create newId userId totalAmount orderId orderItems
                      st1 with
              | Threw _ => (server_error_checkout, st)
              | Ok (order, st2) =>
                  match
                    fst (createTransactionWithRetry snap default_maxRetries)
                  with
                  | Threw _ => (server_error_checkout, st)
                  | Ok midtransResponse =>
                      let st3 :=
                        with_cartItems st2
                          (List.filter
                             (fun it =>
                                negb
                                  (N.eqb (CartItem.cartId it) (Cart.id cart)))
                             (cartItems st2)) in
                      (mkResponse 201
                         (OrderCreated (Order.id order) orderId
                            (written (Order.totalAmount order))
                            (Order.status order)
                            (token midtransResponse)
                            (redirect_url midtransResponse)),
                       st3)
                  end
              end
          end
      end
  end.

(** ** Words of the specification

    Definitions that follow the specification's wording; the theorems below
    compare them with the code. *)

(** The retry schedule: attempts [i], [i+1], ..., [i+k] with the backoff
    sleep after each attempt but the last. *)
Fixpoint schedule (i k : nat) : list GatewayEvent :=
  match k with
  | O => [Call i]
  | S k' => Call i :: Sleep (delay i) :: schedule (S i) k'
  end.

(** The first attempt among [i], ..., [i+n-1] that the gateway accepts. *)
Fixpoint first_ok (snap : Snap) (n i : nat)
  : option (nat * MidtransPaymentResponse) :=
  match n with
  | O => None
  | S n' =>
      match snap i with
      | SnapOk r => Some (i, r)
      | SnapErr _ _ => first_ok snap n' (S i)
      end
  end.

Definition is_call (e : GatewayEvent) : bool :=
  match e with Call _ => true | Sleep _ => false end.

Definition calls (evs : list GatewayEvent) : nat :=
  length (List.filter is_call evs).

Definition sleeps (evs : list GatewayEvent) : list Z :=
  flat_map (fun e => match e with Sleep ms => [ms] | Call _ => [] end) evs.

(** A gateway that rejects every request for good. *)
Definition rejecting_gateway : Snap :=
  fun _ => SnapErr Definitive "invalid request".

(** The signature check in the specification's words: the payload's
    signature equals the keyed hash over reference, status code and amount. *)
Definition signature_valid (sha512_hex : string -> string)
    (MIDTRANS_SERVER_KEY : string) (body : Notification) : bool :=
  match signature_key body with
  | Text sig =>
      String.eqb
        (sha512_hex (template (order_id body) +:+ template (status_code body)
                     +:+ template (gross_amount body) +:+ MIDTRANS_SERVER_KEY))
        sig
  | _ => false
  end.

Definition fields_present (body : Notification) : bool :=
  truthy (order_id body) && truthy (status_code body)
  && truthy (gross_amount body) && truthy_field (signature_key body).

(** The signature of the payload is a string. *)
Definition signature_is_text (body : Notification) : bool :=
  match signature_key body with
  | Text _ => true
  | _ => false
  end.

(** The transition table of the order state machine, by status class. *)
Definition cancel_class (body : Notification) : bool :=
  strict_eq (transaction_status body) "cancel"
  || strict_eq (transaction_status body) "deny"
  || strict_eq (transaction_status body) "expire".

Definition completed_class (body : Notification) : bool :=
  (strict_eq (transaction_status body) "capture"
   && strict_eq (fraud_status body) "accept")
  || strict_eq (transaction_status body) "settlement".

Definition target_status (body : Notification) : OrderStatus :=
  if completed_class body then completed
  else if cancel_class body then failed
  else pending.

(** The stock ledger's [release(productId, qty)]: add [qty] to the stock of
    a product that exists. *)
Definition bump (qty : Z) (p : Product.t) : Product.t :=
  Product.set_stock p (Product.stock p + qty)%Z.

(** The quantity a snapshot holds of one product, over all its lines. *)
Definition ordered (productId : N) (items : list OrderItem.t) : Z :=
  fold_right
    (fun it acc =>
       if N.eqb (OrderItem.productId it) productId
       then (OrderItem.quantity it + acc)%Z else acc)
    0%Z items.

(** The webhook handler with every storage call succeeding. *)
Definition reconcile (body : Notification) (st : Store) : Response * Store :=
  handlePaymentNotification no_faults body st.

(** Of the storage calls of the webhook handler, only those of the stock
    release may throw. *)
Definition release_faults_only (fl : Faults) : Prop :=
  Order_findOne_throws fl = false
  /\ sequelize_transaction_throws fl = false
  /\ Order_save_throws fl = false.

(** The same notification delivered once more for each element of [fls],
    which tells the storage calls that throw during that delivery. *)
Definition deliveries (fls : list Faults) (body : Notification) (st : Store)
  : Store :=
  fold_left (fun s fl => snd (handlePaymentNotification fl body s)) fls st.


(** The checkout total.  In the code's arithmetic it is the sum, from the
    left and starting at 0, of the double products price times quantity. *)
Definition line_price (l : CartLine) : Z :=
  match product l with
  | Some p => Product.price p
  | None => 0%Z
  end.

Definition line_total (l : CartLine) : float :=
  PrimFloat.mul (parseFloat (line_price l))
    (float_of_Z (CartItem.quantity (item l))).

Definition float_sum (xs : list float) : float :=
  fold_left PrimFloat.add xs (float_of_Z 0).

(** In decimal arithmetic a price in hundredths times an integer quantity is
    again a number of hundredths, so rounding each product to 2 decimals
    leaves it as it is, and the total is the sum of these, in hundredths. *)
Definition decimal_total (lines : list CartLine) : Z :=
  fold_right
    (fun l acc => (line_price l * CartItem.quantity (item l) + acc)%Z)
    0%Z lines.

(** A cart line the checkout loop passes: its product exists and the stock
    loaded with it covers the quantity. *)
Definition line_ok (l : CartLine) : bool :=
  match product l with
  | Some p => negb (Product.stock p <? CartItem.quantity (item l))%Z
  | None => false
  end.

(** No open handle holds the lock of the line's product row. *)
Definition line_unlocked (st : Store) (l : CartLine) : bool :=
  match product l with
  | Some p => negb (locked (handles st) (Product.id p))
  | None => true
  end.

Definition failing (snap : Snap) (n : nat) : Prop :=
  forall i, i < n -> exists kind message, snap i = SnapErr kind message.

(** ** A small shop

    One customer, two products, a cart with three widgets. *)
Module Shop.
Definition widget : Product.t := Product.mk 1 "Widget" 110 10.
Definition gadget : Product.t := Product.mk 2 "Gadget" 250 1.
Definition alice : User.t := User.mk 1 "Alice" "alice@example.com".

Definition three_widgets : CartItem.t := CartItem.mk 1 1 1 3.

Definition open_shop : Store :=
  mkStore {[ 1%N := alice ]} (<[2%N := gadget]> {[ 1%N := widget ]})
    [Cart.mk 1 1] [three_widgets] [] [].

Definition accepting_gateway : Snap :=
  fun _ => SnapOk (mkPayment "snap-token" "https://pay.example/snap-token").

(** The shop after Alice's checkout at clock reading 1000. *)
Definition after_checkout : Store :=
  snd (checkout accepting_gateway 1000 1 1 open_shop).

(** A stand-in for SHA-512 and a server key. *)
Definition toy_hash (s : string) : string := "h(" +:+ s +:+ ")".
Definition server_key : string := "SB-Mid-server-key".

(** A notification for Alice's order, signed with the key. *)
Definition notification (transaction_status : string) : Notification :=
  mkNotification (Some "ORDER-1000-1") (Some "200") (Some "3.30")
    (Text (toy_hash ("ORDER-1000-1" +:+ "200" +:+ "3.30" +:+ server_key)))
    (Some transaction_status) None
    (Some "bank_transfer") (Some "2024-05-01 10:00:00") None.


(** The webhook route of the shop. *)
Definition deliver (fl : Faults) (body : Notification) (st : Store)
  : Response * Store :=
  webhook toy_hash server_key fl body st.

(** The shop once the payment of that order has been settled. *)
Definition after_settlement : Store :=
  snd (reconcile (notification "settlement") after_checkout).

(** After her checkout Alice puts a gadget in her cart and checks out
    again, the clock still reading 1000. *)
Definition refilled : Store :=
  with_cartItems after_checkout [CartItem.mk 2 1 2 1].

Definition after_second_checkout : Store :=
  snd (checkout accepting_gateway 1000 2 1 refilled).

(** Alice also wants two gadgets, of which there is one. *)
Definition two_gadgets : CartItem.t := CartItem.mk 2 1 2 2.

Definition greedy_shop : Store :=
  with_cartItems open_shop [three_widgets; two_gadgets].

(** The product table cannot be written. *)
Definition products_read_only : Faults :=
  mkFaults false false (fun _ => false) (fun _ => true) false.
End Shop.

(** The snapshot entry of a cart line. *)
Definition snapshot_line (l : CartLine) : list OrderItem.t :=
  match product l with
  | Some p => [snapshot_of p (CartItem.quantity (item l))]
  | None => []
  end.

(** What a response to [checkout] says about the new order. *)
Definition total_of (r : Response) : option float :=
  match res_body r with
  | OrderCreated _ _ totalAmount _ _ _ => Some totalAmount
  | Message _ => None
  end.

Definition reference_of (r : Response) : option string :=
  match res_body r with
  | OrderCreated _ orderId _ _ _ _ => Some orderId
  | Message _ => None
  end.

(** A text without the separator of the payment reference. *)
Fixpoint no_dash (s : string) : bool :=
  match s with
  | EmptyString => true
  | String a s' => negb (Ascii.eqb a "-") && no_dash s'
  end.

(** A gateway that cannot be reached. *)
Definition unreachable_gateway : Snap :=
  fun _ => SnapErr Transient "connect ETIMEDOUT".

(** ** Order status for the customer *)

(** What the gateway's status endpoint returns, as far as the controller
    reads it. *)
Module MidtransStatus.
Record t : Set := mk {
  transaction_status : option string;
  fraud_status : option string;
  payment_type : option string;
  transaction_time : option string;
  settlement_time : option string
}.
End MidtransStatus.

(** [getTransactionStatus]: [get] is the outcome of the [axios.get] call for
    the reference; whatever it throws is replaced by one message. *)
Definition getTransactionStatus (get : string -> Result MidtransStatus.t)
    (orderId : string) : Result MidtransStatus.t :=
  match get orderId with
  | Ok data => Ok data
  | Threw _ => Threw "Failed to get transaction status"
  end.

(** The [order] object of the answer of [getOrderStatus]. *)
Module OrderView.
Record t : Type := mk {
  id : N;
  orderId : option string;
  totalAmount : Decimal;
  status : OrderStatus;
  paymentType : option string;
  transactionTime : option Date;
  settlementTime : option Date;
  items : list OrderItem.t
}.
End OrderView.

Definition order_view (order : Order.t) : OrderView.t :=
  OrderView.mk (Order.id order) (Order.midtransPaymentId order)
    (Order.totalAmount order) (Order.status order) (Order.paymentType order)
    (Order.transactionTime order) (Order.settlementTime order)
    (Order.orderItems order).

Inductive OrderStatusAnswer : Type :=
| StatusMessage (code : N) (message : string)
| StatusOrder (message : string) (order : OrderView.t)
    (midtransStatus : option MidtransStatus.t) (warning : option string).

(** [Order.findOne({ where: { id: orderId, userId } })] *)
Definition Order_findOwn (orderId userId : N) (st : Store) : option Order.t :=
  List.find
    (fun o => N.eqb (Order.id o) orderId && N.eqb (Order.userId o) userId)
    (orders st).

(** [getOrderStatus] for the authenticated customer [userId] and the order
    id of the path, with storage working. *)
Definition getOrderStatus (get : string -> Result MidtransStatus.t)
    (orderId userId : N) (st : Store) : OrderStatusAnswer :=
  match Order_findOwn orderId userId st with
  | None => StatusMessage 404 "Order not found"
  | Some order =>
      if truthy (Order.midtransPaymentId order) then
        match getTransactionStatus get
                (template (Order.midtransPaymentId order)) with
        | Ok midtransStatus =>
            StatusOrder "Order status retrieved successfully"
              (order_view order) (Some midtransStatus) None
        | Threw _ =>
            StatusOrder "Order status retrieved successfully (local)"
              (order_view order) None
              (Some "Unable to fetch real-time status from Midtrans")
        end
      else StatusMessage 400 "Order has no payment ID"
  end.

(** ** Cart controller *)

(** [CartItem.findOne({ where: { cartId, productId } })] *)
Definition CartItem_findOne (cartId productId : N) (st : Store)
  : option CartItem.t :=
  List.find
    (fun it => N.eqb (CartItem.cartId it) cartId
               && N.eqb (CartItem.productId it) productId)
    (cartItems st).

(** [Cart.findOne({ where: { userId } })] *)
Definition Cart_findByUser (userId : N) (st : Store) : option Cart.t :=
  List.find (fun c => N.eqb (Cart.userId c) userId) (carts st).

Definition set_quantity (it : CartItem.t) (q : Z) : CartItem.t :=
  CartItem.mk (CartItem.id it) (CartItem.cartId it) (CartItem.productId it) q.

(** [cartItem.save()]: the row with the instance's primary key takes the
    instance's attributes. *)
Definition put_item (item : CartItem.t) (it : CartItem.t) : CartItem.t :=
  if N.eqb (CartItem.id it) (CartItem.id item) then item else it.

Definition CartItem_save (item : CartItem.t) (st : Store) : Store :=
  with_cartItems st (List.map (put_item item) (cartItems st)).

(** [cartItem.destroy()]: the row with the instance's primary key goes. *)
Definition CartItem_destroy (item : CartItem.t) (st : Store) : Store :=
  with_cartItems st
    (List.filter (fun it => negb (N.eqb (CartItem.id it) (CartItem.id item)))
       (cartItems st)).

Definition with_carts (st : Store) (cs : list Cart.t) : Store :=
  mkStore (users st) (products st) cs (cartItems st) (orders st) (handles st).

(** [addItemToCart] for the authenticated customer [userId], with storage
    working.  [validated] is the outcome of
    [ValidationService.validateAddToCart(req.body)], which rests on the zod
    library: the product id and the quantity as numbers, or a thrown error.
    [newCartId] and [newItemId] are the keys the database gives a new cart
    and a new cart item. *)
Definition addItemToCart (validated : Result (N * Z))
    (newCartId newItemId userId : N) (st : Store) : Response * Store :=
  match validated with
  | Threw _ => (json_message 500 "Internal server error", st)
  | Ok (productId, quantity) =>
      if N.eqb productId 0 || Z.eqb quantity 0 || (quantity <? 1)%Z then
        (json_message 400 "Invalid product ID or quantity", st)
      else
        match products st !! productId with
        | None => (json_message 404 "Product not found", st)
        | Some product =>
            if (Product.stock product <? quantity)%Z then
              (json_message 400 "Insufficient product stock", st)
            else
              let '(cart, st) :=
                match Cart_findByUser userId st with
                | Some cart => (cart, st)
                | None =>
                    let cart := Cart.mk newCartId userId in
                    (cart, with_carts st (carts st ++ [cart]))
                end in
              let st :=
                match CartItem_findOne (Cart.id cart) productId st with
                | Some existingCartItem =>
                    CartItem_save
                      (set_quantity existingCartItem
                         (CartItem.quantity existingCartItem + quantity)%Z)
                      st
                | None =>
                    with_cartItems st
                      (cartItems st
                       ++ [CartItem.mk newItemId (Cart.id cart) productId
                             quantity])
                end in
              (json_message 200 "Item added to cart successfully", st)
        end
  end.

(** [removeFromCart] for the product id of the path. *)
Definition removeFromCart (productId userId : N) (st : Store)
  : Response * Store :=
  match Cart_findByUser userId st with
  | None => (json_message 404 "Cart not found", st)
  | Some cart =>
      match CartItem_findOne (Cart.id cart) productId st with
      | None => (json_message 404 "Item not found in cart", st)
      | Some cartItem =>
          (json_message 200 "Item removed from cart successfully",
           CartItem_destroy cartItem st)
      end
  end.

(** [updateCartItem] for the product id of the path and the [quantity] of
    the body, read as a number. *)
Definition updateCartItem (productId : N) (quantity : Z) (userId : N)
    (st : Store) : Response * Store :=
  if Z.eqb quantity 0 || (quantity <? 1)%Z then
    (json_message 400 "Invalid quantity", st)
  else
    match Cart_findByUser userId st with
    | None => (json_message 404 "Cart not found", st)
    | Some cart =>
        match CartItem_findOne (Cart.id cart) productId st with
        | None => (json_message 404 "Item not found in cart", st)
        | Some cartItem =>
            match products st !! productId with
            | None => (json_message 400 "Insufficient product stock", st)
            | Some product =>
                if (Product.stock product <? quantity)%Z then
                  (json_message 400 "Insufficient product stock", st)
                else
                  (json_message 200 "Cart item updated successfully",
                   CartItem_save (set_quantity cartItem quantity) st)
            end
        end
    end.

(** ** Quantities

    Sums the further properties are stated with. *)

(** What the reservation loop of [checkout] does to the product table. *)
Definition reserve (l : CartLine) (ps : gmap N Product.t) : gmap N Product.t :=
  match product l with
  | Some p =>
      alter
        (fun r => Product.set_stock r
                    (Product.stock r - CartItem.quantity (item l))%Z)
        (Product.id p) ps
  | None => ps
  end.

Definition reserve_all (lines : list CartLine) (ps : gmap N Product.t)
  : gmap N Product.t :=
  fold_left (fun ps l => reserve l ps) lines ps.

(** The quantity the cart lines hold of the product with id [productId]. *)
Definition reserved (productId : N) (lines : list CartLine) : Z :=
  fold_right
    (fun l acc =>
       match product l with
       | Some p =>
           if N.eqb (Product.id p) productId
           then (CartItem.quantity (item l) + acc)%Z else acc
       | None => acc
       end)
    0%Z lines.

(** The quantity the cart items hold under one cart and product. *)
Definition line_quantity (cartId productId : N) (items : list CartItem.t) : Z :=
  fold_right
    (fun it acc =>
       if N.eqb (CartItem.cartId it) cartId
          && N.eqb (CartItem.productId it) productId
       then (CartItem.quantity it + acc)%Z else acc)
    0%Z items.

Definition item_key (it : CartItem.t) : N * N :=
  (CartItem.cartId it, CartItem.productId it).

(** The product table is keyed by the primary key of its rows. *)
Definition products_keyed (st : Store) : Prop :=
  forall k p, products st !! k = Some p -> Product.id p = k.

(** The sleeping time of a run of the gateway client, in ms. *)
Definition total_sleep (evs : list GatewayEvent) : Z :=
  fold_right Z.add 0%Z (sleeps evs).

(** * Properties *)

(** ** Payment-gateway client *)

Lemma payment_eta (r : MidtransPaymentResponse) :
  mkPayment (token r) (redirect_url r) = r.
Proof. by destruct r. Qed.

Lemma first_ok_ge snap n i k r :
  first_ok snap n i = Some (k, r) -> i <= k < i + n /\ snap k = SnapOk r.
Proof.
  revert i. induction n as [|n IH]; intros i; simpl; [done|].
  destruct (snap i) as [r'|kd msg] eqn:E.
  - intros [= <- <-]. split; [lia | done].
  - intros H. apply IH in H. split; [lia | tauto].
Qed.

Lemma first_ok_none snap n i :
  first_ok snap n i = None ->
  forall j, i <= j < i + n -> exists kd msg, snap j = SnapErr kd msg.
Proof.
  revert i. induction n as [|n IH]; intros i; simpl; [lia|].
  destruct (snap i) as [r'|kd msg] eqn:E; [done|].
  intros H j Hj. destruct (decide (j = i)) as [->|Hne]; [eauto|].
  apply (IH (S i) H). lia.
Qed.

(** The loop, from any index on, follows the schedule up to the first
    accepted attempt, or up to the last permitted one. *)
Lemma retry_loop_schedule snap maxRetries n i :
  i + n = maxRetries ->
  match first_ok snap n i with
  | Some (k, r) => retry_loop snap maxRetries n i = (Ok r, schedule i (k - i))
  | None =>
      match n with
      | O => retry_loop snap maxRetries n i
             = (Threw "Failed to create payment transaction", [])
      | S n' => exists m, retry_loop snap maxRetries n i
                          = (Threw m, schedule i n')
      end
  end.
Proof.
  revert i. induction n as [|n IH]; intros i Hn; simpl; [done|].
  destruct (snap i) as [r|kd msg] eqn:E.
  - rewrite Nat.sub_diag, payment_eta. done.
  - destruct (Nat.eqb_spec i (maxRetries - 1)) as [Hlast|Hmore].
    + assert (n = 0) as -> by lia. simpl. eauto.
    + specialize (IH (S i) ltac:(lia)).
      destruct (first_ok snap n (S i)) as [[k r]|] eqn:F.
      * rewrite IH. apply first_ok_ge in F.
        replace (k - i) with (S (k - S i)) by lia. done.
      * destruct n as [|n']; [lia|].
        destruct IH as [m ->]. eauto.
Qed.

Lemma calls_schedule i k : calls (schedule i k) = S k.
Proof.
  revert i. induction k as [|k IH]; intros i; [done|].
  unfold calls in *. simpl. by rewrite IH.
Qed.

Lemma sleeps_schedule i k : sleeps (schedule i k) = List.map delay (seq i k).
Proof.
  revert i. induction k as [|k IH]; intros i; [done|].
  simpl. by rewrite <- IH.
Qed.

Lemma delay_le i : (delay i <= 5000)%Z.
Proof. unfold delay. lia. Qed.

(** C6 (as the code has it).  [createTransactionWithRetry] makes the attempts
    0, 1, ... in turn until the gateway accepts one or [maxRetries] (3 by
    default) have been made; it goes on after a failure of either kind, a
    definitive rejection included; after every failed attempt but the last
    permitted one it sleeps [min(1000 * 2^i, 5000)] ms, that is 1 s and 2 s
    under the default bound (4 s and then 5 s would follow under a larger
    one); when no attempt is accepted it throws. *)
Theorem createTransactionWithRetry_schedule (snap : Snap) (maxRetries : nat) :
  (match first_ok snap maxRetries 0 with
   | Some (k, r) =>
       createTransactionWithRetry snap maxRetries = (Ok r, schedule 0 k)
   | None =>
       exists m,
         createTransactionWithRetry snap maxRetries
         = (Threw m, match maxRetries with O => [] | S n => schedule 0 n end)
   end)
  /\ calls (snd (createTransactionWithRetry snap maxRetries)) <= maxRetries
  /\ sleeps (snd (createTransactionWithRetry snap maxRetries))
     = List.map delay
         (seq 0 (calls (snd (createTransactionWithRetry snap maxRetries)) - 1))
  /\ delay 0 = 1000%Z /\ delay 1 = 2000%Z /\ delay 2 = 4000%Z
  /\ forall i, (delay i <= 5000)%Z.
Proof.
  unfold createTransactionWithRetry.
  pose proof (retry_loop_schedule snap maxRetries maxRetries 0 eq_refl) as H.
  destruct (first_ok snap maxRetries 0) as [[k r]|] eqn:F.
  - rewrite Nat.sub_0_r in H. rewrite H. simpl.
    apply first_ok_ge in F.
    rewrite calls_schedule, sleeps_schedule.
    replace (S k - 1) with k by lia.
    repeat split; try done; try lia; apply delay_le.
  - destruct maxRetries as [|n].
    + rewrite H. repeat split; try done; try (by eexists); apply delay_le.
    + destruct H as [m H]. rewrite H. simpl.
      rewrite calls_schedule, sleeps_schedule.
      replace (S n - 1) with n by lia.
      repeat split; try done; try (by eexists); apply delay_le.
Qed.

Lemma createTransactionWithRetry_schedule_witness :
  exists m,
    createTransactionWithRetry rejecting_gateway default_maxRetries
    = (Threw m, [Call 0; Sleep 1000; Call 1; Sleep 2000; Call 2]).
Proof.
  exact (proj1 (createTransactionWithRetry_schedule rejecting_gateway
                  default_maxRetries)).
Defined.

(** C6, as stated, fails: a gateway that answers every request with a
    definitive rejection is called three times, with the two sleeps between. *)
Lemma definitive_rejection_is_retried :
  rejecting_gateway 0 = SnapErr Definitive "invalid request"
  /\ createTransactionWithRetry rejecting_gateway default_maxRetries
     = (Threw "Failed to create payment transaction after 3 retries: invalid request",
        [Call 0; Sleep 1000; Call 1; Sleep 2000; Call 2])
  /\ calls (snd (createTransactionWithRetry rejecting_gateway default_maxRetries))
     <> 1.
Proof.
  split; [reflexivity|]. split; [vm_compute; reflexivity|].
  vm_compute. lia.
Qed.

(** Either no attempt is accepted and the client throws, or some attempt
    within the bound is. *)
Lemma createTransactionWithRetry_outcome snap maxRetries :
  (exists m, createTransactionWithRetry snap maxRetries
             = (Threw m, match maxRetries with
                         | O => []
                         | S n => schedule 0 n
                         end))
  \/ (exists k r, (k < maxRetries /\ snap k = SnapOk r)
                  /\ createTransactionWithRetry snap maxRetries
                     = (Ok r, schedule 0 k)).
Proof.
  unfold createTransactionWithRetry.
  pose proof (retry_loop_schedule snap maxRetries maxRetries 0 eq_refl) as H.
  destruct (first_ok snap maxRetries 0) as [[k r]|] eqn:F.
  - right. exists k, r. apply first_ok_ge in F.
    rewrite Nat.sub_0_r in H. split; [split; [lia | tauto] | done].
  - left. destruct maxRetries as [|n]; [by eexists | done].
Qed.

(** ** Webhook authentication *)

Lemma fields_present_false body :
  fields_present body = false ->
  negb (truthy (order_id body)) || negb (truthy (status_code body))
  || negb (truthy (gross_amount body))
  || negb (truthy_field (signature_key body))
  = true.
Proof.
  unfold fields_present.
  destruct (truthy (order_id body)), (truthy (status_code body)),
    (truthy (gross_amount body)), (truthy_field (signature_key body)); done.
Qed.

Lemma fields_present_true body :
  fields_present body = true ->
  negb (truthy (order_id body)) || negb (truthy (status_code body))
  || negb (truthy (gross_amount body))
  || negb (truthy_field (signature_key body))
  = false.
Proof.
  unfold fields_present.
  destruct (truthy (order_id body)), (truthy (status_code body)),
    (truthy (gross_amount body)), (truthy_field (signature_key body)); done.
Qed.

(** The middleware's check is the keyed-hash comparison of the
    specification. *)
Lemma verifySignature_signature_valid sha512_hex key body :
  verifySignature sha512_hex key (template (order_id body))
    (template (status_code body)) (template (gross_amount body))
    (signature_key body)
  = signature_valid sha512_hex key body.
Proof. unfold verifySignature, signature_valid. by destruct (signature_key body). Qed.

(** The middleware never calls [next()] on a payload whose signature is not
    the keyed hash. *)
Lemma authenticateWebhook_bad_signature sha512_hex key body :
  signature_valid sha512_hex key body = false ->
  authenticateWebhook sha512_hex key body
  = Respond
      (if fields_present body
       then if signature_is_text body
            then json_message 401
                   "Invalid signature - unauthorized webhook request"
            else json_message 500 "Webhook authentication failed"
       else json_message 400 "Missing required webhook fields").
Proof.
  intros Hbad. unfold authenticateWebhook.
  destruct (fields_present body) eqn:Hp.
  - rewrite (fields_present_true _ Hp), verifySignature_signature_valid, Hbad.
    unfold substring_0_20, signature_is_text.
    by destruct (signature_key body).
  - by rewrite (fields_present_false _ Hp).
Qed.

(** What the route answers with 200 is the handler's answer to a payload
    that passed the signature check. *)
Lemma webhook_200 sha512_hex key fl body st resp st' :
  webhook sha512_hex key fl body st = (resp, st') ->
  res_status resp = 200%N ->
  signature_valid sha512_hex key body = true
  /\ handlePaymentNotification fl body st = (resp, st').
Proof.
  unfold webhook. intros H Hs.
  destruct (signature_valid sha512_hex key body) eqn:V.
  - split; [done|].
    destruct (authenticateWebhook sha512_hex key body) as [r|] eqn:A; [|done].
    unfold authenticateWebhook in A. injection H as <- <-.
    destruct (_ || _) in A; [by injection A as <-|].
    destruct (negb _) in A; [|done].
    destruct (substring_0_20 _) in A; by injection A as <-.
  - rewrite (authenticateWebhook_bad_signature _ _ _ V) in H.
    injection H as <- <-.
    by destruct (fields_present body), (signature_is_text body).
Qed.




(** ** The order state machine and the webhook reconciler *)

(** *** The status cascade *)

Ltac case_status s lit :=
  destruct (String.eqb_spec s lit) as [->|?]; simpl; try done.

(** The [if] / [else if] cascade computes the transition table, and releases
    stock in the cancel class only. *)
Lemma status_cascade_table fl body order st :
  status_cascade fl body order st
  = if cancel_class body then
      if sequelize_transaction_throws fl then Threw storage_error
      else Ok (failed, rollbackStock fl (Order.orderItems order) st)
    else Ok (target_status body, st).
Proof.
  unfold status_cascade, target_status, completed_class, cancel_class,
    sequelize_transaction.
  destruct (transaction_status body) as [s|]; simpl; [|done].
  case_status s "capture".
  { destruct (fraud_status body) as [f|]; simpl; [|done].
    case_status f "challenge". case_status f "accept". }
  case_status s "settlement".
  case_status s "pending".
  case_status s "cancel".
  { by destruct (sequelize_transaction_throws fl). }
  case_status s "deny".
  { by destruct (sequelize_transaction_throws fl). }
  case_status s "expire".
  by destruct (sequelize_transaction_throws fl).
Qed.

Lemma cancel_class_target body :
  cancel_class body = true -> target_status body = failed.
Proof.
  unfold target_status, completed_class, cancel_class.
  destruct (transaction_status body) as [s|]; simpl; [|done].
  case_status s "capture". case_status s "settlement".
  by intros ->.
Qed.

Lemma status_cascade_Ok fl body order st s st1 :
  status_cascade fl body order st = Ok (s, st1) ->
  s = target_status body
  /\ st1 = (if cancel_class body
            then rollbackStock fl (Order.orderItems order) st else st).
Proof.
  rewrite status_cascade_table.
  destruct (cancel_class body) eqn:C.
  - destruct (sequelize_transaction_throws fl); [done|].
    intros [= <- <-]. by rewrite (cancel_class_target _ C).
  - by intros [= <- <-].
Qed.

(** *** What [update_order] writes *)

Lemma update_order_frame body s o :
  Order.id (update_order body s o) = Order.id o
  /\ Order.userId (update_order body s o) = Order.userId o
  /\ Order.totalAmount (update_order body s o) = Order.totalAmount o
  /\ Order.midtransPaymentId (update_order body s o) = Order.midtransPaymentId o
  /\ Order.orderItems (update_order body s o) = Order.orderItems o.
Proof.
  unfold update_order.
  destruct (payment_type body) as [x|]; [destruct (truthy (Some x))|];
    (destruct (transaction_time body) as [y|]; [destruct (truthy (Some y))|]);
    (destruct (settlement_time body) as [z|]; [destruct (truthy (Some z))|]);
    done.
Qed.

Lemma update_order_writes body s o :
  Order.status (update_order body s o) = s
  /\ Order.paymentType (update_order body s o)
     = (if truthy (payment_type body) then payment_type body
        else Order.paymentType o)
  /\ Order.transactionTime (update_order body s o)
     = (if truthy (transaction_time body)
        then new_Date <$> transaction_time body else Order.transactionTime o)
  /\ Order.settlementTime (update_order body s o)
     = (if truthy (settlement_time body)
        then new_Date <$> settlement_time body else Order.settlementTime o).
Proof.
  unfold update_order.
  destruct (payment_type body) as [x|]; [destruct (truthy (Some x))|];
    (destruct (transaction_time body) as [y|]; [destruct (truthy (Some y))|]);
    (destruct (settlement_time body) as [z|]; [destruct (truthy (Some z))|]);
    done.
Qed.

Lemma order_ext (a b : Order.t) :
  Order.id a = Order.id b ->
  Order.userId a = Order.userId b ->
  Order.totalAmount a = Order.totalAmount b ->
  Order.status a = Order.status b ->
  Order.midtransPaymentId a = Order.midtransPaymentId b ->
  Order.orderItems a = Order.orderItems b ->
  Order.paymentType a = Order.paymentType b ->
  Order.transactionTime a = Order.transactionTime b ->
  Order.settlementTime a = Order.settlementTime b ->
  a = b.
Proof. destruct a, b; simpl; congruence. Qed.

(** Writing the same notification into an order a second time changes
    nothing. *)
Lemma update_order_idem body s o :
  update_order body s (update_order body s o) = update_order body s o.
Proof.
  pose proof (update_order_frame body s (update_order body s o)) as (?&?&?&?&?).
  pose proof (update_order_writes body s (update_order body s o)) as (?&Hp&Ht&Hs).
  pose proof (update_order_writes body s o) as (?&Hp'&Ht'&Hs').
  apply order_ext; try congruence.
  - rewrite Hp, Hp'. by destruct (truthy (payment_type body)).
  - rewrite Ht, Ht'. by destruct (truthy (transaction_time body)).
  - rewrite Hs, Hs'. by destruct (truthy (settlement_time body)).
Qed.

(** *** Saving the matched row *)

Lemma put_row_eq o h : Order.id h = Order.id o -> put_row o h = o.
Proof. unfold put_row. intros ->. by rewrite N.eqb_refl. Qed.

Lemma put_row_ne o h : Order.id h <> Order.id o -> put_row o h = h.
Proof. unfold put_row. intros H. by destruct (N.eqb_spec (Order.id h) (Order.id o)). Qed.

Lemma Order_save_Ok fl order st st' :
  Order_save fl order st = Ok st' ->
  st' = with_orders st (List.map (put_row order) (orders st)).
Proof. unfold Order_save. destruct (Order_save_throws fl); by intros [= <-]. Qed.

Lemma ref_matches_same ref o o' :
  Order.midtransPaymentId o' = Order.midtransPaymentId o ->
  ref_matches ref o' = ref_matches ref o.
Proof. unfold ref_matches. by intros ->. Qed.

(** After the save, the lookup by the same reference finds the saved
    instance. *)
Lemma find_put_row ref o o' (rows : list Order.t) :
  List.find (ref_matches ref) rows = Some o ->
  Order.id o' = Order.id o ->
  Order.midtransPaymentId o' = Order.midtransPaymentId o ->
  List.find (ref_matches ref) (List.map (put_row o') rows) = Some o'.
Proof.
  intros Hfind Hid Href.
  assert (ref_matches ref o = true) as Hm
    by (apply List.find_some in Hfind; tauto).
  assert (ref_matches ref o' = true) as Hm'
    by (by rewrite (ref_matches_same _ _ _ Href)).
  induction rows as [|h rows IH]; simpl in *; [done|].
  destruct (N.eqb_spec (Order.id h) (Order.id o')) as [E|E].
  - rewrite (put_row_eq _ _ E). by rewrite Hm'.
  - rewrite (put_row_ne _ _ E).
    destruct (ref_matches ref h) eqn:Hh.
    + injection Hfind as ->. congruence.
    + by apply IH.
Qed.

Lemma put_row_twice o (rows : list Order.t) :
  List.map (put_row o) (List.map (put_row o) rows) = List.map (put_row o) rows.
Proof.
  rewrite List.map_map. apply List.map_ext. intros h.
  destruct (N.eqb_spec (Order.id h) (Order.id o)) as [E|E].
  - by rewrite (put_row_eq _ _ E), put_row_eq.
  - by rewrite !(put_row_ne _ _ E).
Qed.

(** *** The shape of an accepted notification *)

Lemma handlePaymentNotification_200 fl body st resp st' :
  handlePaymentNotification fl body st = (resp, st') ->
  res_status resp = 200%N ->
  exists ref order,
    order_id body = Some ref
    /\ List.find (ref_matches ref) (orders st) = Some order
    /\ resp = json_message 200 "Notification processed successfully"
    /\ st' = with_orders
               (if cancel_class body
                then rollbackStock fl (Order.orderItems order) st else st)
               (List.map (put_row (update_order body (target_status body) order))
                  (orders st)).
Proof.
  unfold handlePaymentNotification, Order_findOne.
  destruct (Order_findOne_throws fl); [by intros [= <- <-]|].
  destruct (order_id body) as [ref|]; [|by intros [= <- <-]].
  destruct (List.find (ref_matches ref) (orders st)) as [order|] eqn:F;
    [|by intros [= <- <-]].
  destruct (status_cascade fl body order st) as [[s st1]|e] eqn:C;
    [|by intros [= <- <-]].
  apply status_cascade_Ok in C as [-> ->].
  destruct (Order_save fl _ _) as [st2|e] eqn:S; [|by intros [= <- <-]].
  apply Order_save_Ok in S. intros [= <- <-] _.
  exists ref, order. repeat split; try done.
  rewrite S. by destruct (cancel_class body).
Qed.

(** C3 (as the code has it).  The handler does not read the order's current
    status: after an accepted notification the matched order has the status
    the notification's codes map to -- completed for capture with fraud
    status accept and for settlement, failed for cancel, deny and expire,
    pending for everything else -- whatever its status was before.  A
    completed or failed order so keeps its status only under notifications
    that map to that same status. *)
Theorem notification_overwrites_status
    (sha512_hex : string -> string) (key : string)
    (fl : Faults) (body : Notification) (st st' : Store) (resp : Response) :
  webhook sha512_hex key fl body st = (resp, st') ->
  res_status resp = 200%N ->
  exists ref order order',
    order_id body = Some ref
    /\ List.find (ref_matches ref) (orders st) = Some order
    /\ List.find (ref_matches ref) (orders st') = Some order'
    /\ Order.id order' = Order.id order
    /\ Order.status order' = target_status body.
Proof.
  intros H Hok. apply webhook_200 in H as [_ H]; [|done].
  destruct (handlePaymentNotification_200 _ _ _ _ _ H Hok)
    as (ref & order & Hid & Hfind & _ & ->).
  pose proof (update_order_frame body (target_status body) order)
    as (Ei & _ & _ & Er & _).
  pose proof (update_order_writes body (target_status body) order) as (Es & _).
  exists ref, order, (update_order body (target_status body) order).
  repeat split; try done.
  simpl. by apply (find_put_row ref order).
Qed.

Lemma notification_overwrites_status_witness :
  exists ref order order',
    order_id (Shop.notification "settlement") = Some ref
    /\ List.find (ref_matches ref) (orders Shop.after_checkout) = Some order
    /\ List.find (ref_matches ref) (orders Shop.after_settlement) = Some order'
    /\ Order.id order' = Order.id order
    /\ Order.status order' = target_status (Shop.notification "settlement").
Proof.
  exact (notification_overwrites_status Shop.toy_hash Shop.server_key
           no_faults (Shop.notification "settlement") Shop.after_checkout
           Shop.after_settlement
           (json_message 200 "Notification processed successfully")
           eq_refl eq_refl).
Defined.

(** C3, as stated, fails: a notification of the pending class moves a
    completed order back to pending, and one of the cancel class moves it to
    failed. *)
Lemma completed_order_reopened :
  Order.status <$> List.find (ref_matches "ORDER-1000-1")
                     (orders Shop.after_settlement)
  = Some completed
  /\ res_status (fst (Shop.deliver no_faults (Shop.notification "pending")
                        Shop.after_settlement)) = 200%N
  /\ Order.status <$> List.find (ref_matches "ORDER-1000-1")
                        (orders (snd (Shop.deliver no_faults
                                        (Shop.notification "pending")
                                        Shop.after_settlement)))
     = Some pending
  /\ Order.status <$> List.find (ref_matches "ORDER-1000-1")
                        (orders (snd (Shop.deliver no_faults
                                        (Shop.notification "expire")
                                        Shop.after_settlement)))
     = Some failed.
Proof. repeat split; vm_compute; reflexivity. Qed.

(** *** The frame of an accepted notification *)



(** *** Raising a stock figure *)

Lemma bump_0 p : bump 0 p = p.
Proof. destruct p. unfold bump, Product.set_stock. simpl. by rewrite Z.add_0_r. Qed.

Lemma bump_bump a b p : bump b (bump a p) = bump (a + b) p.
Proof. unfold bump, Product.set_stock. simpl. by rewrite Z.add_assoc. Qed.

(** *** Reconciliation when only the stock release may fail *)

Lemma handlePaymentNotification_release_only fl body st :
  release_faults_only fl ->
  handlePaymentNotification fl body st
  = match order_id body with
    | None => (server_error_notification, st)
    | Some ref =>
        match List.find (ref_matches ref) (orders st) with
        | None => (json_message 404 "Order not found", st)
        | Some order =>
            (json_message 200 "Notification processed successfully",
             with_orders
               (if cancel_class body
                then rollbackStock fl (Order.orderItems order) st else st)
               (List.map
                  (put_row (update_order body (target_status body) order))
                  (orders st)))
        end
    end.
Proof.
  intros (Hf & Ht & Hs).
  unfold handlePaymentNotification, Order_findOne, Order_save.
  rewrite Hf, Hs.
  destruct (order_id body) as [ref|]; [|done].
  destruct (List.find (ref_matches ref) (orders st)) as [order|]; [|done].
  rewrite status_cascade_table, Ht.
  destruct (cancel_class body) eqn:C; [|done].
  by rewrite (cancel_class_target _ C).
Qed.

(** C1 (as the code has it).  Applying a notification a second time gives
    the same answer and leaves every order row, user, cart and cart item as
    the first application left it; under a status other than cancel, deny
    and expire the second application changes nothing at all.  But the
    handler does not look at the order's current status: a cancel, deny or
    expire notification opens a transaction and runs the stock release under
    it on every application, the second like the first: each application
    adds a handle, and the release of the second reads the same committed
    stock as the first.  The storage calls of the lookup, of the opening of
    the transaction and of the saving of the order are taken to work; those
    of the stock release may throw, in either application. *)
Theorem notification_twice
    (fl1 fl2 : Faults) (body : Notification) (st : Store) :
  release_faults_only fl1 ->
  release_faults_only fl2 ->
  let once := handlePaymentNotification fl1 body st in
  let twice := handlePaymentNotification fl2 body (snd once) in
  fst twice = fst once
  /\ orders (snd twice) = orders (snd once)
  /\ users (snd twice) = users st
  /\ carts (snd twice) = carts st
  /\ cartItems (snd twice) = cartItems st
  /\ (cancel_class body = false ->
      products (snd once) = products st /\ snd twice = snd once)
  /\ (forall ref order,
        cancel_class body = true ->
        order_id body = Some ref ->
        List.find (ref_matches ref) (orders st) = Some order ->
        handles (snd once)
        = (handles st
           ++ [snd (rollbackStock_loop fl1 (Order.orderItems order)
                      (products st) (handles st) [])])%list
        /\ handles (snd twice)
           = (handles (snd once)
              ++ [snd (rollbackStock_loop fl2 (Order.orderItems order)
                         (products st) (handles (snd once)) [])])%list).
Proof.
  intros H1 H2. cbv zeta.
  rewrite (handlePaymentNotification_release_only fl1 body st H1).
  destruct (order_id body) as [ref|] eqn:Hid; cycle 1.
  { cbn [fst snd].
    rewrite (handlePaymentNotification_release_only fl2 body st H2), Hid.
    repeat split; try done. }
  destruct (List.find (ref_matches ref) (orders st)) as [order|] eqn:Hfind;
    cycle 1.
  { cbn [fst snd].
    rewrite (handlePaymentNotification_release_only fl2 body st H2), Hid, Hfind.
    repeat (split; [done|]).
    intros ref0 order0 _ [= <-] H. congruence. }
  set (order' := update_order body (target_status body) order).
  pose proof (update_order_frame body (target_status body) order)
    as (Ei & _ & _ & Er & Eo).
  fold order' in Ei, Er, Eo.
  cbn [fst snd].
  rewrite (handlePaymentNotification_release_only fl2 body _ H2), Hid.
  assert (List.find (ref_matches ref)
            (orders (with_orders
               (if cancel_class body
                then rollbackStock fl1 (Order.orderItems order) st
                else st)
               (List.map (put_row order') (orders st)))) = Some order') as ->.
  { simpl. by apply (find_put_row ref order). }
  assert (update_order body (target_status body) order' = order') as ->
    by apply update_order_idem.
  cbn [fst snd with_orders orders users carts cartItems products].
  split; [done|]. split.
  { destruct (cancel_class body); simpl; apply put_row_twice. }
  split; [by destruct (cancel_class body)|].
  split; [by destruct (cancel_class body)|].
  split; [by destruct (cancel_class body)|].
  split.
  { intros ->. split; [done|].
    cbn [users products carts cartItems orders handles].
    by rewrite put_row_twice. }
  intros ref0 order0 C [= <-] H.
  rewrite Hfind in H. injection H as <-. rewrite C.
  cbn [handles rollbackStock with_handles with_orders users products carts
       cartItems orders].
  by rewrite Eo.
Qed.

Lemma notification_twice_witness :
  let once :=
    handlePaymentNotification no_faults (Shop.notification "expire")
      Shop.after_checkout in
  let twice :=
    handlePaymentNotification Shop.products_read_only
      (Shop.notification "expire") (snd once) in
  release_faults_only no_faults
  /\ release_faults_only Shop.products_read_only
  /\ fst twice = fst once
  /\ orders (snd twice) = orders (snd once).
Proof.
  cbv zeta.
  split; [by repeat split|]. split; [by repeat split|].
  destruct (notification_twice no_faults Shop.products_read_only
              (Shop.notification "expire") Shop.after_checkout)
    as (Ha & Ho & _).
  - by repeat split.
  - by repeat split.
  - exact (conj Ha Ho).
Defined.

(** C1, as stated, fails: the second application is not a no-op.  The
    expire notification of Alice's order, applied once, opens a transaction
    and saves the widget row under it; applied a second time it opens another
    transaction and runs the release again.  The save of the second run
    waits for the row lock that the first handle holds, and throws; the
    handler answers 200 as before and the store has a second handle. *)
Lemma expire_twice_runs_release_twice :
  let once :=
    Shop.deliver no_faults (Shop.notification "expire") Shop.after_checkout in
  let twice :=
    Shop.deliver no_faults (Shop.notification "expire") (snd once) in
  res_status (fst once) = 200%N
  /\ res_status (fst twice) = 200%N
  /\ handles Shop.after_checkout = []
  /\ handles (snd once) = [[Product.mk 1 "Widget" 110 10]]
  /\ handles (snd twice) = [[Product.mk 1 "Widget" 110 10]; []]
  /\ snd twice <> snd once.
Proof.
  cbv zeta.
  split; [vm_compute; reflexivity|].
  split; [vm_compute; reflexivity|].
  split; [vm_compute; reflexivity|].
  split; [vm_compute; reflexivity|].
  split; [vm_compute; reflexivity|].
  intros H. apply (f_equal (fun s => length (handles s))) in H.
  vm_compute in H. discriminate.
Qed.

(** *** Storage failures during reconciliation *)

(** C7 (as the code has it).  When the order lookup, the opening of the
    transaction for the stock release, or the saving of the order throws,
    the webhook answers 500.  An error thrown inside the stock release, by
    reading or by saving a product, is caught and logged in [rollbackStock]:
    the release stops at that line, the handler goes on, saves the order as
    failed and answers 200. *)
Theorem reconciliation_storage_failures
    (fl : Faults) (body : Notification) (st : Store) :
  (Order_findOne_throws fl = true ->
   handlePaymentNotification fl body st = (server_error_notification, st))
  /\ (forall ref order,
        Order_findOne_throws fl = false ->
        order_id body = Some ref ->
        List.find (ref_matches ref) (orders st) = Some order ->
        (cancel_class body = true ->
         sequelize_transaction_throws fl = true ->
         handlePaymentNotification fl body st
         = (server_error_notification, st))
        /\ ((cancel_class body = true ->
             sequelize_transaction_throws fl = false) ->
            let st1 :=
              if cancel_class body
              then rollbackStock fl (Order.orderItems order) st else st in
            handlePaymentNotification fl body st
            = if Order_save_throws fl then (server_error_notification, st1)
              else (json_message 200 "Notification processed successfully",
                    with_orders st1
                      (List.map
                         (put_row
                            (update_order body (target_status body) order))
                         (orders st))))).
Proof.
  split.
  - intros H. unfold handlePaymentNotification, Order_findOne. by rewrite H.
  - intros ref order Hf Hid Hfind.
    unfold handlePaymentNotification, Order_findOne.
    rewrite Hf, Hid, Hfind, status_cascade_table. split.
    + by intros -> ->.
    + intros Htx. cbv zeta. unfold Order_save.
      destruct (cancel_class body) eqn:C.
      * rewrite (Htx eq_refl), (cancel_class_target _ C).
        by destruct (Order_save_throws fl).
      * by destruct (Order_save_throws fl).
Qed.

Lemma reconciliation_storage_failures_witness :
  handlePaymentNotification Shop.products_read_only
    (Shop.notification "expire") Shop.after_checkout
  = (json_message 200 "Notification processed successfully",
     with_orders
       (rollbackStock Shop.products_read_only
          [OrderItem.mk 1 "Widget" 110 3] Shop.after_checkout)
       (List.map
          (put_row
             (update_order (Shop.notification "expire") failed
                (Order.mk 1 1
                   (DECIMAL_10_2
                      (float_sum [line_total
                                    (mkLine Shop.three_widgets
                                       (Some Shop.widget))]))
                   pending (Some "ORDER-1000-1")
                   [OrderItem.mk 1 "Widget" 110 3] None None None)))
          (orders Shop.after_checkout))).
Proof.
  destruct (reconciliation_storage_failures Shop.products_read_only
              (Shop.notification "expire") Shop.after_checkout) as [_ H].
  destruct (H "ORDER-1000-1"
              (Order.mk 1 1
                 (DECIMAL_10_2
                    (float_sum [line_total
                                  (mkLine Shop.three_widgets
                                     (Some Shop.widget))]))
                 pending (Some "ORDER-1000-1")
                 [OrderItem.mk 1 "Widget" 110 3] None None None)
              eq_refl eq_refl eq_refl) as [_ H2].
  exact (H2 (fun _ => eq_refl)).
Defined.

(** C7, as stated, fails: with the product table failing on every write,
    the expire notification of Alice's order is answered 200; the order is
    saved as failed and her three widgets are not back in stock. *)
Lemma failed_release_answered_200 :
  res_status (fst (Shop.deliver Shop.products_read_only
                     (Shop.notification "expire") Shop.after_checkout))
  = 200%N
  /\ Order.status
       <$> List.find (ref_matches "ORDER-1000-1")
             (orders (snd (Shop.deliver Shop.products_read_only
                             (Shop.notification "expire")
                             Shop.after_checkout)))
     = Some failed
  /\ Product.stock
       <$> products (snd (Shop.deliver Shop.products_read_only
                            (Shop.notification "expire")
                            Shop.after_checkout)) !! 1%N
     = Some 7%Z.
Proof. repeat split; vm_compute; reflexivity. Qed.

(** ** Checkout *)

(** *** The reservation loop *)

Lemma line_ok_true l :
  line_ok l = true ->
  exists p, product l = Some p
            /\ (Product.stock p <? CartItem.quantity (item l))%Z = false.
Proof.
  unfold line_ok. destruct (product l) as [p|]; [|done].
  intros H. exists p. split; [done|]. by apply negb_true_iff.
Qed.

(** One turn of the loop on a line it can serve. *)
Lemma checkout_loop_step l lines st total acc p :
  product l = Some p ->
  (Product.stock p <? CartItem.quantity (item l))%Z = false ->
  checkout_loop (l :: lines) st total acc
  = if locked (handles st) (Product.id p) then Threw lock_wait_timeout
    else
      checkout_loop lines
        (decremented (Product.id p) (CartItem.quantity (item l)) st)
        (PrimFloat.add total (line_total l)) (acc ++ snapshot_line l)%list.
Proof.
  intros Hp Hs. simpl. rewrite Hp, Hs.
  unfold line_total, line_price, snapshot_line, Product_decrement.
  rewrite Hp. by destruct (locked _ _).
Qed.

(** A loop that runs to its end has passed every line; its total is the
    running sum of the line totals and its snapshot has one entry a line. *)
Lemma checkout_loop_done lines st total acc st1 total1 items1 :
  checkout_loop lines st total acc = Ok (LoopDone st1 total1 items1) ->
  forallb line_ok lines = true
  /\ total1 = fold_left PrimFloat.add (List.map line_total lines) total
  /\ items1 = (acc ++ flat_map snapshot_line lines)%list
  /\ users st1 = users st /\ carts st1 = carts st
  /\ cartItems st1 = cartItems st /\ orders st1 = orders st.
Proof.
  revert st total acc. induction lines as [|l lines IH]; intros st total acc.
  - simpl. intros [= <- <- <-]. by rewrite app_nil_r.
  - destruct (line_ok l) eqn:Hl.
    + destruct (line_ok_true _ Hl) as (p & Hp & Hs).
      rewrite (checkout_loop_step _ _ _ _ _ _ Hp Hs).
      destruct (locked _ _); [done|].
      intros H. apply IH in H as (Hok & -> & -> & Hu & Hc & Hi & Ho).
      simpl. rewrite Hl, <- app_assoc. by repeat split.
    + simpl. unfold line_ok in Hl.
      destruct (product l) as [p|]; [|done].
      apply negb_false_iff in Hl. by rewrite Hl.
Qed.

(** On lines that can all be served the loop runs to its end, unless a
    stock decrement throws. *)
Lemma checkout_loop_served lines st total acc :
  forallb line_ok lines = true ->
  (exists st1,
     checkout_loop lines st total acc
     = Ok (LoopDone st1
             (fold_left PrimFloat.add (List.map line_total lines) total)
             (acc ++ flat_map snapshot_line lines)%list))
  \/ exists e, checkout_loop lines st total acc = Threw e.
Proof.
  revert st total acc. induction lines as [|l lines IH]; intros st total acc.
  - simpl. intros _. left. exists st. by rewrite app_nil_r.
  - simpl forallb. intros [Hl H]%andb_true_iff.
    destruct (line_ok_true _ Hl) as (p & Hp & Hs).
    rewrite (checkout_loop_step _ _ _ _ _ _ Hp Hs).
    destruct (locked _ _); [right; by eexists|].
    destruct (IH (decremented (Product.id p) (CartItem.quantity (item l)) st)
                (PrimFloat.add total (line_total l))
                (acc ++ snapshot_line l)%list H) as [[st1 ->]|[e ->]].
    + left. exists st1. simpl. by rewrite <- app_assoc.
    + right. by exists e.
Qed.



(** *** Failed checkouts *)




(** Every line served and the gateway failing on each of its attempts: the
    client throws. *)
Lemma failing_gateway_throws snap maxRetries :
  failing snap maxRetries ->
  exists m, fst (createTransactionWithRetry snap maxRetries) = Threw m.
Proof.
  intros Hf.
  destruct (createTransactionWithRetry_outcome snap maxRetries) as [H|[k [r [Hk H]]]].
  - destruct H as [m H]. exists m. by rewrite H.
  - destruct (Hf k (proj1 Hk)) as (kd & msg & E). destruct Hk as [_ Hk]. congruence.
Qed.

(** C2 (as the code has it).  When every line of a non-empty cart can be
    served and the gateway fails on each of the three attempts, the checkout
    answers 500 with its generic message, and users, products, carts, cart
    items and orders are as they were before the call: the stock decrements
    and the pending order row are gone with the rolled-back transaction. *)
Theorem checkout_gateway_failure
    (snap : Snap) (now newId userId : N) (st : Store)
    (user : User.t) (cart : Cart.t) (lines : list CartLine) :
  users st !! userId = Some user ->
  Cart_findOne userId st = Some (cart, lines) ->
  lines <> [] ->
  forallb line_ok lines = true ->
  failing snap default_maxRetries ->
  checkout snap now newId userId st
  = (json_message 500 "Server error during checkout", st).
Proof.
  intros Hu Hc Hne Hok Hf. unfold checkout. rewrite Hu, Hc.
  destruct lines as [|l lines]; [done|].
  destruct (checkout_loop_served (l :: lines) st (float_of_Z 0) [] Hok)
    as [[st1 ->]|[e ->]]; [|done].
  destruct (Order_create _ _ _ _ _ _) as [[order st2]|]; [|done].
  destruct (failing_gateway_throws _ _ Hf) as [m ->]. done.
Qed.

Lemma unreachable_gateway_failing n : failing unreachable_gateway n.
Proof. intros i _. by exists Transient, "connect ETIMEDOUT". Qed.

Lemma checkout_gateway_failure_witness :
  checkout unreachable_gateway 1000 1 1 Shop.open_shop
  = (json_message 500 "Server error during checkout", Shop.open_shop).
Proof.
  refine (checkout_gateway_failure unreachable_gateway 1000 1 1 Shop.open_shop
            Shop.alice (Cart.mk 1 1)
            [mkLine Shop.three_widgets (Some Shop.widget)]
            eq_refl eq_refl _ eq_refl (unreachable_gateway_failing _)).
  discriminate.
Defined.

(** C2, as stated, fails: the answer to a checkout whose gateway calls all
    time out has status 500, not 502. *)
Lemma gateway_failure_answered_500 :
  failing unreachable_gateway default_maxRetries
  /\ checkout unreachable_gateway 1000 1 1 Shop.open_shop
     = (json_message 500 "Server error during checkout", Shop.open_shop)
  /\ res_status (fst (checkout unreachable_gateway 1000 1 1 Shop.open_shop))
     <> 502%N.
Proof.
  split; [apply unreachable_gateway_failing|].
  split; [vm_compute; reflexivity|]. vm_compute. discriminate.
Qed.

(** The only answer the loop gives itself is the 400 for short stock. *)
Lemma checkout_loop_return lines st total acc r :
  checkout_loop lines st total acc = Ok (LoopReturn r) ->
  exists p, r = json_message 400 ("Insufficient stock for " +:+ Product.name p).
Proof.
  revert st total acc. induction lines as [|l lines IH]; intros st total acc.
  - done.
  - simpl. destruct (product l) as [p|]; [|done].
    destruct (Product.stock p <? CartItem.quantity (item l))%Z.
    + intros [= <-]. by exists p.
    + destruct (Product_decrement _ _ _) as [st1|e]; [apply IH | done].
Qed.

(** *** Successful checkouts *)

(** What a checkout that answers 201 has done. *)
Lemma checkout_201 snap now newId userId st resp st' :
  checkout snap now newId userId st = (resp, st') ->
  res_status resp = 201%N ->
  exists cart lines pay,
    Cart_findOne userId st = Some (cart, lines)
    /\ forallb line_ok lines = true
    /\ resp = mkResponse 201
                (OrderCreated newId (make_orderId now userId)
                   (float_sum (List.map line_total lines)) pending
                   (token pay) (redirect_url pay))
    /\ orders st'
       = (orders st
          ++ [Order.mk newId userId
                (DECIMAL_10_2 (float_sum (List.map line_total lines)))
                pending (Some (make_orderId now userId))
                (flat_map snapshot_line lines) None None None])%list.
Proof.
  unfold checkout.
  destruct (users st !! userId) as [user|]; [|by intros [= <- <-]].
  destruct (Cart_findOne userId st) as [[cart lines]|]; [|by intros [= <- <-]].
  destruct lines as [|l lines]; [by intros [= <- <-]|].
  destruct (checkout_loop (l :: lines) st (float_of_Z 0) [])
    as [[st1 total items1|r]|e] eqn:L; [| |by intros [= <- <-]].
  - unfold Order_create.
    destruct (DECIMAL_10_2_overflow total); [by intros [= <- <-]|].
    destruct (fst (createTransactionWithRetry snap default_maxRetries))
      as [pay|e]; [|by intros [= <- <-]].
    apply checkout_loop_done in L as (Hok & -> & -> & Hu & Hc & Hi & Ho).
    intros [= <- <-] _. exists cart, (l :: lines), pay.
    cbn [orders with_cartItems with_orders Order.id Order.totalAmount
           Order.status written]. rewrite Ho. done.
  - intros [= <- <-] Hs.
    destruct (checkout_loop_return _ _ _ _ _ L) as (p & ->).
    discriminate Hs.
Qed.

(** C9 (as the code has it).  The total of a checkout that creates an order
    is the sum, taken from the left and starting at 0, of the products of
    [parseFloat(price)] and the quantity over the cart lines, all in double
    precision; neither a product nor the sum is rounded to 2 decimals by the
    code.  This number is the total of the answer, and it is the number
    written to the [DECIMAL(10,2)] column of the new order row, where the
    database rounds it. *)
Theorem checkout_total
    (snap : Snap) (now newId userId : N) (st st' : Store) (resp : Response) :
  checkout snap now newId userId st = (resp, st') ->
  res_status resp = 201%N ->
  exists cart lines order,
    Cart_findOne userId st = Some (cart, lines)
    /\ forallb line_ok lines = true
    /\ total_of resp = Some (float_sum (List.map line_total lines))
    /\ orders st' = (orders st ++ [order])%list
    /\ Order.totalAmount order
       = DECIMAL_10_2 (float_sum (List.map line_total lines)).
Proof.
  intros H Hs.
  destruct (checkout_201 _ _ _ _ _ _ _ H Hs)
    as (cart & lines & pay & Hc & Hok & -> & Ho).
  eexists cart, lines, _. repeat split; [done | done | exact Ho | done].
Qed.

Lemma checkout_total_witness :
  exists cart lines order,
    Cart_findOne 1 Shop.open_shop = Some (cart, lines)
    /\ forallb line_ok lines = true
    /\ total_of (fst (checkout Shop.accepting_gateway 1000 1 1 Shop.open_shop))
       = Some (float_sum (List.map line_total lines))
    /\ orders Shop.after_checkout = (orders Shop.open_shop ++ [order])%list
    /\ Order.totalAmount order
       = DECIMAL_10_2 (float_sum (List.map line_total lines)).
Proof.
  exact (checkout_total Shop.accepting_gateway 1000 1 1 Shop.open_shop
           Shop.after_checkout
           (fst (checkout Shop.accepting_gateway 1000 1 1 Shop.open_shop))
           eq_refl eq_refl).
Defined.

(** C9, as stated, fails: three widgets at 1.10 make 3.30, and the total the
    checkout computes is the double just above the one nearest to 3.30. *)
Lemma total_not_two_decimals :
  option_map (fun found => decimal_total (snd found))
    (Cart_findOne 1 Shop.open_shop)
  = Some 330%Z
  /\ option_map (PrimFloat.ltb (parseFloat 330))
       (total_of (fst (checkout Shop.accepting_gateway 1000 1 1
                         Shop.open_shop)))
     = Some true
  /\ total_of (fst (checkout Shop.accepting_gateway 1000 1 1 Shop.open_shop))
     <> Some (parseFloat 330).
Proof.
  split; [vm_compute; reflexivity|]. split; [vm_compute; reflexivity|].
  intros H.
  assert (option_map (PrimFloat.eqb (parseFloat 330))
            (total_of (fst (checkout Shop.accepting_gateway 1000 1 1
                              Shop.open_shop))) = Some true) as E
    by (rewrite H; vm_compute; reflexivity).
  vm_compute in E. discriminate.
Qed.

(** *** The payment reference *)

Lemma append_cons a (s t : string) : String a s +:+ t = String a (s +:+ t).
Proof. reflexivity. Qed.

Lemma append_nil (t : string) : "" +:+ t = t.
Proof. reflexivity. Qed.

Lemma no_dash_NilEmpty d : no_dash (NilEmpty.string_of_uint d) = true.
Proof. induction d; simpl; auto. Qed.

Lemma no_dash_string_of_N n : no_dash (string_of_N n) = true.
Proof.
  unfold string_of_N, NilZero.string_of_uint.
  destruct (N.to_uint n); try apply no_dash_NilEmpty. reflexivity.
Qed.

Lemma string_of_N_inj n m : string_of_N n = string_of_N m -> n = m.
Proof.
  unfold string_of_N. intros H.
  apply DecimalN.Unsigned.to_uint_inj.
  assert (forall k, N.to_uint k <> Decimal.Nil) as Hnn.
  { intros [|p]; [discriminate | apply DecimalPos.Unsigned.to_uint_nonnil]. }
  apply (f_equal NilZero.uint_of_string) in H.
  rewrite !NilZero.usu in H by apply Hnn. by injection H.
Qed.

(** Two texts without a dash, each followed by a dash and a rest: the first
    dash tells where the first text ends. *)
Lemma split_at_dash (a a' b b' : string) :
  no_dash a = true -> no_dash a' = true ->
  a +:+ String "-" b = a' +:+ String "-" b' ->
  a = a' /\ b = b'.
Proof.
  revert a'. induction a as [|c a IH]; intros [|c' a']; simpl;
    rewrite ?append_cons, ?append_nil.
  - by intros _ _ [= ->].
  - intros _ H [= <- _]. done.
  - intros H _ [= -> _]. done.
  - intros [_ Ha]%andb_true_iff [_ Ha']%andb_true_iff [= -> E].
    destruct (IH _ Ha Ha' E) as [-> ->]. done.
Qed.

(** The reference tells the clock reading and the customer apart, and
    nothing else. *)
Lemma make_orderId_inj now1 user1 now2 user2 :
  make_orderId now1 user1 = make_orderId now2 user2 <->
  now1 = now2 /\ user1 = user2.
Proof.
  split; [|by intros [-> ->]].
  unfold make_orderId. rewrite !append_cons, !append_nil.
  intros [= E].
  apply split_at_dash in E as [E1 E2]; try apply no_dash_string_of_N.
  split; by apply string_of_N_inj.
Qed.

(** C8 (as the code has it).  The reference of a checkout is made of the
    millisecond clock reading and the customer's id.  The references of two
    checkouts that create an order are distinct exactly when the checkouts
    differ in the clock reading or in the customer; the code has no other
    source of uniqueness, whatever the store, the order ids and the gateway
    are. *)
Theorem checkout_references
    (snap1 snap2 : Snap) (now1 now2 newId1 newId2 userId1 userId2 : N)
    (st1 st2 st1' st2' : Store) (resp1 resp2 : Response) :
  checkout snap1 now1 newId1 userId1 st1 = (resp1, st1') ->
  checkout snap2 now2 newId2 userId2 st2 = (resp2, st2') ->
  res_status resp1 = 201%N ->
  res_status resp2 = 201%N ->
  exists ref1 ref2 order1 order2,
    reference_of resp1 = Some ref1
    /\ reference_of resp2 = Some ref2
    /\ orders st1' = (orders st1 ++ [order1])%list
    /\ orders st2' = (orders st2 ++ [order2])%list
    /\ Order.midtransPaymentId order1 = Some ref1
    /\ Order.midtransPaymentId order2 = Some ref2
    /\ (ref1 = ref2 <-> now1 = now2 /\ userId1 = userId2).
Proof.
  intros H1 H2 Hs1 Hs2.
  destruct (checkout_201 _ _ _ _ _ _ _ H1 Hs1)
    as (cart1 & lines1 & pay1 & _ & _ & -> & Ho1).
  destruct (checkout_201 _ _ _ _ _ _ _ H2 Hs2)
    as (cart2 & lines2 & pay2 & _ & _ & -> & Ho2).
  eexists _, _, _, _.
  split; [reflexivity|]. split; [reflexivity|].
  split; [exact Ho1|]. split; [exact Ho2|].
  split; [reflexivity|]. split; [reflexivity|].
  apply make_orderId_inj.
Qed.

Lemma checkout_references_witness :
  exists ref1 ref2 order1 order2,
    reference_of (fst (checkout Shop.accepting_gateway 1000 1 1 Shop.open_shop))
    = Some ref1
    /\ reference_of (fst (checkout Shop.accepting_gateway 1001 2 1
                            Shop.refilled))
       = Some ref2
    /\ orders Shop.after_checkout = (orders Shop.open_shop ++ [order1])%list
    /\ orders (snd (checkout Shop.accepting_gateway 1001 2 1 Shop.refilled))
       = (orders Shop.refilled ++ [order2])%list
    /\ Order.midtransPaymentId order1 = Some ref1
    /\ Order.midtransPaymentId order2 = Some ref2
    /\ (ref1 = ref2 <-> 1000%N = 1001%N /\ 1%N = 1%N).
Proof.
  exact (checkout_references Shop.accepting_gateway Shop.accepting_gateway
           1000 1001 1 2 1 1 Shop.open_shop Shop.refilled
           Shop.after_checkout
           (snd (checkout Shop.accepting_gateway 1001 2 1 Shop.refilled))
           (fst (checkout Shop.accepting_gateway 1000 1 1 Shop.open_shop))
           (fst (checkout Shop.accepting_gateway 1001 2 1 Shop.refilled))
           eq_refl eq_refl eq_refl eq_refl).
Defined.

(** C8, as stated, fails: Alice's two checkouts within the same millisecond
    both create an order, and the two order rows carry the same reference. *)
Lemma same_millisecond_same_reference :
  res_status (fst (checkout Shop.accepting_gateway 1000 1 1 Shop.open_shop))
  = 201%N
  /\ res_status (fst (checkout Shop.accepting_gateway 1000 2 1 Shop.refilled))
     = 201%N
  /\ List.map Order.id (orders Shop.after_second_checkout) = [1%N; 2%N]
  /\ List.map Order.midtransPaymentId (orders Shop.after_second_checkout)
     = [Some "ORDER-1000-1"; Some "ORDER-1000-1"].
Proof. repeat split; vm_compute; reflexivity. Qed.

(** * Further properties *)

(** ** Checkout: answers, reservation, snapshot *)

Lemma reserve_step l p ps :
  product l = Some p ->
  reserve l ps
  = alter (fun r => Product.set_stock r
                      (Product.stock r - CartItem.quantity (item l))%Z)
      (Product.id p) ps.
Proof. unfold reserve. by intros ->. Qed.

(** The store the reservation loop ends with. *)
Lemma checkout_loop_store lines st total acc st1 total1 items1 :
  checkout_loop lines st total acc = Ok (LoopDone st1 total1 items1) ->
  st1 = with_products st (reserve_all lines (products st)).
Proof.
  revert st total acc. induction lines as [|l lines IH]; intros st total acc.
  - simpl. intros [= <- _ _]. by destruct st.
  - intros H. pose proof H as H'.
    apply checkout_loop_done in H' as (Hok & _).
    simpl in Hok. apply andb_true_iff in Hok as [Hl _].
    destruct (line_ok_true _ Hl) as (p & Hp & Hs).
    rewrite (checkout_loop_step _ _ _ _ _ _ Hp Hs) in H.
    destruct (locked _ _); [done|].
    apply IH in H. rewrite H. unfold reserve_all. simpl.
    by rewrite (reserve_step _ _ _ Hp).
Qed.

(** A loop that runs to its end has found no row locked. *)
Lemma checkout_loop_unlocked lines st total acc st1 total1 items1 :
  checkout_loop lines st total acc = Ok (LoopDone st1 total1 items1) ->
  forallb (line_unlocked st) lines = true.
Proof.
  revert st total acc. induction lines as [|l lines IH]; intros st total acc;
    [done|].
  intros H. pose proof H as H'.
  apply checkout_loop_done in H' as (Hok & _).
  simpl in Hok. apply andb_true_iff in Hok as [Hl _].
  destruct (line_ok_true _ Hl) as (p & Hp & Hs).
  rewrite (checkout_loop_step _ _ _ _ _ _ Hp Hs) in H.
  simpl. unfold line_unlocked at 1. rewrite Hp.
  destruct (locked _ _); [done|]. simpl.
  by apply IH in H.
Qed.

(** Everything a checkout that answers 201 has done. *)
Lemma checkout_201_store snap now newId userId st resp st' :
  checkout snap now newId userId st = (resp, st') ->
  res_status resp = 201%N ->
  exists user cart lines pay,
    users st !! userId = Some user
    /\ Cart_findOne userId st = Some (cart, lines)
    /\ lines <> []
    /\ forallb line_ok lines = true
    /\ fst (createTransactionWithRetry snap default_maxRetries) = Ok pay
    /\ st' = mkStore (users st) (reserve_all lines (products st)) (carts st)
               (List.filter
                  (fun it => negb (N.eqb (CartItem.cartId it) (Cart.id cart)))
                  (cartItems st))
               (orders st
                ++ [Order.mk newId userId
                      (DECIMAL_10_2 (float_sum (List.map line_total lines)))
                      pending (Some (make_orderId now userId))
                      (flat_map snapshot_line lines) None None None])%list
               (handles st).
Proof.
  unfold checkout.
  destruct (users st !! userId) as [user|]; [|by intros [= <- <-]].
  destruct (Cart_findOne userId st) as [[cart lines]|]; [|by intros [= <- <-]].
  destruct lines as [|l lines]; [by intros [= <- <-]|].
  destruct (checkout_loop (l :: lines) st (float_of_Z 0) [])
    as [[st1 total items1|r]|e] eqn:L; [| |by intros [= <- <-]].
  - unfold Order_create.
    destruct (DECIMAL_10_2_overflow total); [by intros [= <- <-]|].
    destruct (fst (createTransactionWithRetry snap default_maxRetries))
      as [pay|e] eqn:G; [|by intros [= <- <-]].
    pose proof (checkout_loop_store _ _ _ _ _ _ _ L) as ->.
    apply checkout_loop_done in L as (Hok & -> & -> & _).
    intros [= <- <-] _. exists user, cart, (l :: lines), pay.
    repeat split; done.
  - intros [= <- <-] Hs.
    destruct (checkout_loop_return _ _ _ _ _ L) as (p & ->).
    discriminate Hs.
Qed.

Lemma checkout_201_unlocked snap now newId userId st resp st' cart lines :
  checkout snap now newId userId st = (resp, st') ->
  res_status resp = 201%N ->
  Cart_findOne userId st = Some (cart, lines) ->
  forallb (line_unlocked st) lines = true.
Proof.
  unfold checkout. intros H Hs Hc. rewrite Hc in H.
  destruct (users st !! userId) as [user|];
    [|injection H as <- <-; discriminate Hs].
  destruct lines as [|l lines]; [done|].
  destruct (checkout_loop (l :: lines) st (float_of_Z 0) [])
    as [[st1 total items1|r]|e] eqn:L.
  - by apply checkout_loop_unlocked in L.
  - injection H as <- <-.
    destruct (checkout_loop_return _ _ _ _ _ L) as (p & ->).
    discriminate Hs.
  - injection H as <- <-. discriminate Hs.
Qed.

(** The total of a checkout that answers 201 fits the column of the order
    row. *)
Lemma checkout_201_in_range snap now newId userId st resp st' cart lines :
  checkout snap now newId userId st = (resp, st') ->
  res_status resp = 201%N ->
  Cart_findOne userId st = Some (cart, lines) ->
  DECIMAL_10_2_overflow (float_sum (List.map line_total lines)) = false.
Proof.
  unfold checkout. intros H Hs Hc. rewrite Hc in H.
  destruct (users st !! userId) as [user|];
    [|injection H as <- <-; discriminate Hs].
  destruct lines as [|l lines]; [injection H as <- <-; discriminate Hs|].
  destruct (checkout_loop (l :: lines) st (float_of_Z 0) [])
    as [[st1 total items1|r]|e] eqn:L.
  - apply checkout_loop_done in L as (_ & -> & _).
    unfold Order_create in H. unfold float_sum.
    destruct (DECIMAL_10_2_overflow _); [|done].
    injection H as <- <-. discriminate Hs.
  - injection H as <- <-.
    destruct (checkout_loop_return _ _ _ _ _ L) as (p & ->).
    discriminate Hs.
  - injection H as <- <-. discriminate Hs.
Qed.

(** X1.  An answer 201 of [checkout] means that the customer exists, the
    cart has lines, every line can be served from the stock loaded with it,
    no handle left open holds the row of a product of the cart, the total
    fits the [DECIMAL(10,2)] column of the order row, and the gateway has
    accepted one of the three attempts.  Every other answer is 400, 404 or
    500. *)
Theorem checkout_answers
    (snap : Snap) (now newId userId : N) (st : Store) :
  (res_status (fst (checkout snap now newId userId st)) = 201%N ->
   exists user cart lines,
     users st !! userId = Some user
     /\ Cart_findOne userId st = Some (cart, lines)
     /\ lines <> []
     /\ forallb line_ok lines = true
     /\ forallb (line_unlocked st) lines = true
     /\ DECIMAL_10_2_overflow (float_sum (List.map line_total lines)) = false
     /\ is_Some (first_ok snap default_maxRetries 0))
  /\ (res_status (fst (checkout snap now newId userId st)) = 201%N
      \/ res_status (fst (checkout snap now newId userId st)) = 400%N
      \/ res_status (fst (checkout snap now newId userId st)) = 404%N
      \/ res_status (fst (checkout snap now newId userId st)) = 500%N).
Proof.
  assert (forall pay, fst (createTransactionWithRetry snap default_maxRetries)
                      = Ok pay ->
                      is_Some (first_ok snap default_maxRetries 0)) as Gok.
  { intros pay G.
    destruct (createTransactionWithRetry_outcome snap default_maxRetries)
      as [[m E]|(k & r & [Hk Hr] & E)]; rewrite E in G; [done|].
    destruct (first_ok snap default_maxRetries 0) as [x|] eqn:F; [by eexists|].
    destruct (first_ok_none _ _ _ F k ltac:(lia)) as (kd & msg & Hs).
    congruence. }
  split.
  - intros Hs.
    destruct (checkout snap now newId userId st) as [resp st'] eqn:E.
    destruct (checkout_201_store _ _ _ _ _ _ _ E Hs)
      as (user & cart & lines & pay & Hu & Hc & Hne & Hok & G & _).
    pose proof (checkout_201_in_range _ _ _ _ _ _ _ _ _ E Hs Hc) as Hr.
    pose proof (checkout_201_unlocked _ _ _ _ _ _ _ _ _ E Hs Hc) as Hf.
    exists user, cart, lines. eauto 10.
  - unfold checkout.
    destruct (users st !! userId) as [user|]; [|auto].
    destruct (Cart_findOne userId st) as [[cart lines]|]; [|auto].
    destruct lines as [|l lines]; [auto|].
    destruct (checkout_loop (l :: lines) st (float_of_Z 0) [])
      as [[st1 total items1|r]|e] eqn:L; [| |auto].
    + destruct (Order_create _ _ _ _ _ _) as [[order st2]|]; [|auto].
      destruct (fst (createTransactionWithRetry snap default_maxRetries));
        auto.
    + destruct (checkout_loop_return _ _ _ _ _ L) as (p & ->). auto.
Qed.

(** X2.  A checkout that does not answer 201 leaves the whole store as it
    was: every failing path ends in the rollback. *)
Theorem checkout_failure_rolls_back
    (snap : Snap) (now newId userId : N) (st : Store) :
  res_status (fst (checkout snap now newId userId st)) <> 201%N ->
  snd (checkout snap now newId userId st) = st.
Proof.
  unfold checkout.
  destruct (users st !! userId) as [user|]; [|done].
  destruct (Cart_findOne userId st) as [[cart lines]|]; [|done].
  destruct lines as [|l lines]; [done|].
  destruct (checkout_loop (l :: lines) st (float_of_Z 0) [])
    as [[st1 total items1|r]|e]; [|done|done].
  destruct (Order_create _ _ _ _ _ _) as [[order st2]|]; [|done].
  destruct (fst (createTransactionWithRetry snap default_maxRetries)); done.
Qed.

Lemma checkout_failure_rolls_back_witness :
  snd (checkout Shop.accepting_gateway 1000 1 1 Shop.greedy_shop)
  = Shop.greedy_shop.
Proof.
  apply (checkout_failure_rolls_back Shop.accepting_gateway 1000 1 1
           Shop.greedy_shop).
  vm_compute. discriminate.
Defined.

(** ** Checkout: what becomes of stock, cart and order *)

Lemma bump_opp a b p : bump (- a) (bump (- b) p) = bump (- (b + a)) p.
Proof. rewrite bump_bump. f_equal. lia. Qed.

Lemma reserve_lookup l (ps : gmap N Product.t) pid :
  reserve l ps !! pid
  = match product l with
    | Some p =>
        if N.eqb (Product.id p) pid
        then bump (- CartItem.quantity (item l)) <$> ps !! pid
        else ps !! pid
    | None => ps !! pid
    end.
Proof.
  unfold reserve. destruct (product l) as [p|]; [|done].
  destruct (N.eqb_spec (Product.id p) pid) as [->|Hne].
  - rewrite lookup_alter_eq. by destruct (ps !! pid).
  - by rewrite lookup_alter_ne.
Qed.

(** The reservation lowers every product by the quantity the lines hold of
    it and does nothing else to the table. *)
Lemma reserve_all_lookup lines (ps : gmap N Product.t) pid :
  reserve_all lines ps !! pid = bump (- reserved pid lines) <$> ps !! pid.
Proof.
  revert ps. induction lines as [|l lines IH]; intros ps.
  - simpl. destruct (ps !! pid) as [p|]; simpl; [by rewrite bump_0 | done].
  - unfold reserve_all in *. simpl. rewrite IH, reserve_lookup.
    destruct (product l) as [p|]; [|done].
    destruct (N.eqb (Product.id p) pid); [|done].
    destruct (ps !! pid) as [r|]; simpl; [|done].
    by rewrite bump_opp.
Qed.

(** The snapshot holds of every product what the lines hold of it. *)
Lemma ordered_snapshot pid lines :
  ordered pid (flat_map snapshot_line lines) = reserved pid lines.
Proof.
  induction lines as [|l lines IH]; [done|].
  simpl. unfold snapshot_line at 1.
  destruct (product l) as [p|]; simpl; by rewrite IH.
Qed.

(** X3.  A checkout that answers 201 lowers the stock of every product by
    the quantity the cart lines hold of it, and changes nothing else in the
    product table: no row comes or goes, and ids, names and prices stay. *)
Theorem checkout_reserves_stock
    (snap : Snap) (now newId userId : N) (st st' : Store) (resp : Response)
    (cart : Cart.t) (lines : list CartLine) :
  checkout snap now newId userId st = (resp, st') ->
  res_status resp = 201%N ->
  Cart_findOne userId st = Some (cart, lines) ->
  forall pid,
    products st' !! pid = bump (- reserved pid lines) <$> products st !! pid.
Proof.
  intros H Hs Hc pid.
  destruct (checkout_201_store _ _ _ _ _ _ _ H Hs)
    as (user & cart' & lines' & pay & _ & Hc' & _ & _ & _ & ->).
  rewrite Hc in Hc'. injection Hc' as <- <-.
  simpl. apply reserve_all_lookup.
Qed.

Lemma checkout_reserves_stock_witness :
  products Shop.after_checkout !! 1%N
  = bump (- 3) <$> products Shop.open_shop !! 1%N.
Proof.
  exact (checkout_reserves_stock Shop.accepting_gateway 1000 1 1
           Shop.open_shop Shop.after_checkout
           (fst (checkout Shop.accepting_gateway 1000 1 1 Shop.open_shop))
           (Cart.mk 1 1) [mkLine Shop.three_widgets (Some Shop.widget)]
           eq_refl eq_refl eq_refl 1%N).
Defined.

Lemma filter_filter_out {A} (f : A -> bool) (l : list A) :
  List.filter f (List.filter (fun x => negb (f x)) l) = [].
Proof.
  induction l as [|x l IH]; [done|]. simpl.
  destruct (f x) eqn:E; simpl; [done|]. by rewrite E.
Qed.

(** X4.  A checkout that answers 201 removes exactly the items of the
    customer's cart and keeps those of every other cart; the cart itself
    stays, empty, so that checking out again at once is answered 400 'Cart
    is empty' and changes nothing. *)
Theorem checkout_clears_cart
    (snap : Snap) (now newId userId : N) (st st' : Store) (resp : Response)
    (cart : Cart.t) (lines : list CartLine) :
  checkout snap now newId userId st = (resp, st') ->
  res_status resp = 201%N ->
  Cart_findOne userId st = Some (cart, lines) ->
  cartItems st'
  = List.filter (fun it => negb (N.eqb (CartItem.cartId it) (Cart.id cart)))
      (cartItems st)
  /\ carts st' = carts st
  /\ Cart_findOne userId st' = Some (cart, [])
  /\ forall snap2 now2 newId2,
       checkout snap2 now2 newId2 userId st'
       = (json_message 400 "Cart is empty", st').
Proof.
  intros H Hs Hc.
  destruct (checkout_201_store _ _ _ _ _ _ _ H Hs)
    as (user & cart' & lines' & pay & Hu & Hc' & _ & _ & _ & ->).
  rewrite Hc in Hc'. injection Hc' as <- <-.
  assert (Cart_findOne userId
            (mkStore (users st) (reserve_all lines (products st)) (carts st)
               (List.filter
                  (fun it => negb (N.eqb (CartItem.cartId it) (Cart.id cart)))
                  (cartItems st))
               (orders st
                ++ [Order.mk newId userId
                      (DECIMAL_10_2 (float_sum (List.map line_total lines)))
                      pending (Some (make_orderId now userId))
                      (flat_map snapshot_line lines) None None None])%list
               (handles st))
          = Some (cart, [])) as Hempty.
  { unfold Cart_findOne in *. simpl.
    destruct (List.find (fun c => N.eqb (Cart.userId c) userId) (carts st))
      as [c|]; [|done].
    injection Hc as -> _.
    by rewrite (filter_filter_out
                  (fun it => N.eqb (CartItem.cartId it) (Cart.id cart))). }
  repeat split; try done.
  intros snap2 now2 newId2. unfold checkout. rewrite Hempty. simpl.
  by rewrite Hu.
Qed.

Lemma checkout_clears_cart_witness :
  cartItems Shop.after_checkout = []
  /\ carts Shop.after_checkout = carts Shop.open_shop
  /\ Cart_findOne 1 Shop.after_checkout = Some (Cart.mk 1 1, [])
  /\ checkout Shop.accepting_gateway 1001 2 1 Shop.after_checkout
     = (json_message 400 "Cart is empty", Shop.after_checkout).
Proof.
  destruct (checkout_clears_cart Shop.accepting_gateway 1000 1 1
              Shop.open_shop Shop.after_checkout
              (fst (checkout Shop.accepting_gateway 1000 1 1 Shop.open_shop))
              (Cart.mk 1 1) [mkLine Shop.three_widgets (Some Shop.widget)]
              eq_refl eq_refl eq_refl) as (H1 & H2 & H3 & H4).
  split; [exact H1|]. split; [exact H2|]. split; [exact H3|].
  exact (H4 Shop.accepting_gateway 1001%N 2%N).
Defined.

(** The snapshot of lines that can all be served has one entry a line, in
    the order of the lines. *)
Lemma snapshot_entries lines :
  forallb line_ok lines = true ->
  Forall2
    (fun l entry =>
       exists p, product l = Some p
                 /\ entry = OrderItem.mk (Product.id p) (Product.name p)
                              (Product.price p) (CartItem.quantity (item l)))
    lines (flat_map snapshot_line lines).
Proof.
  induction lines as [|l lines IH]; [constructor|].
  simpl. intros [Hl Hok]%andb_true_iff.
  destruct (line_ok_true _ Hl) as (p & Hp & _).
  unfold snapshot_line at 1. rewrite Hp. simpl.
  constructor; [by exists p | by apply IH].
Qed.

(** X5.  A checkout that answers 201 adds one order row at the end of the
    table and touches no other: the row is pending, belongs to the customer,
    carries no payment details yet, and its snapshot has, line by line in
    cart order, the id, name and price of the product as loaded with the cart
    and the quantity of the line, so that it holds of every product exactly
    what was taken from stock. *)
Theorem checkout_snapshot
    (snap : Snap) (now newId userId : N) (st st' : Store) (resp : Response)
    (cart : Cart.t) (lines : list CartLine) :
  checkout snap now newId userId st = (resp, st') ->
  res_status resp = 201%N ->
  Cart_findOne userId st = Some (cart, lines) ->
  exists order,
    orders st' = (orders st ++ [order])%list
    /\ Order.id order = newId
    /\ Order.userId order = userId
    /\ Order.status order = pending
    /\ Order.paymentType order = None
    /\ Order.transactionTime order = None
    /\ Order.settlementTime order = None
    /\ Forall2
         (fun l entry =>
            exists p, product l = Some p
                      /\ entry = OrderItem.mk (Product.id p) (Product.name p)
                                   (Product.price p)
                                   (CartItem.quantity (item l)))
         lines (Order.orderItems order)
    /\ forall pid, ordered pid (Order.orderItems order) = reserved pid lines.
Proof.
  intros H Hs Hc.
  destruct (checkout_201_store _ _ _ _ _ _ _ H Hs)
    as (user & cart' & lines' & pay & _ & Hc' & _ & Hok & _ & ->).
  rewrite Hc in Hc'. injection Hc' as <- <-.
  eexists. split; [reflexivity|]. simpl.
  repeat split; try done.
  - by apply snapshot_entries.
  - intros pid. apply ordered_snapshot.
Qed.

Lemma checkout_snapshot_witness :
  exists order,
    orders Shop.after_checkout = (orders Shop.open_shop ++ [order])%list
    /\ Order.id order = 1%N
    /\ Order.userId order = 1%N
    /\ Order.status order = pending
    /\ Order.paymentType order = None
    /\ Order.transactionTime order = None
    /\ Order.settlementTime order = None
    /\ Forall2
         (fun l entry =>
            exists p, product l = Some p
                      /\ entry = OrderItem.mk (Product.id p) (Product.name p)
                                   (Product.price p)
                                   (CartItem.quantity (item l)))
         [mkLine Shop.three_widgets (Some Shop.widget)]
         (Order.orderItems order)
    /\ ordered 1 (Order.orderItems order)
       = reserved 1 [mkLine Shop.three_widgets (Some Shop.widget)].
Proof.
  destruct (checkout_snapshot Shop.accepting_gateway 1000 1 1
              Shop.open_shop Shop.after_checkout
              (fst (checkout Shop.accepting_gateway 1000 1 1 Shop.open_shop))
              (Cart.mk 1 1) [mkLine Shop.three_widgets (Some Shop.widget)]
              eq_refl eq_refl eq_refl)
    as (order & H1 & H2 & H3 & H4 & H5 & H6 & H7 & H8 & H9).
  exists order. repeat (split; [assumption|]). exact (H9 1%N).
Defined.

(** ** Checkout and reconciliation together *)

Lemma find_app_miss {A} (f : A -> bool) (l k : list A) :
  List.find f l = None -> List.find f (l ++ k) = List.find f k.
Proof.
  induction l as [|x l IH]; [done|]. simpl.
  destruct (f x); [done | exact IH].
Qed.

Lemma ref_matches_refl ref o :
  Order.midtransPaymentId o = Some ref -> ref_matches ref o = true.
Proof. unfold ref_matches. intros ->. apply String.eqb_refl. Qed.

(** X6.  When a checkout has answered 201 and no earlier order carries its
    reference, a notification for that reference that is answered 200 has
    found the order the checkout created: that row now has the status of the
    notification's class, and its owner and its snapshot of the cart lines
    are as the checkout wrote them. *)
Theorem checkout_then_notification
    (snap : Snap) (now newId userId : N) (st st' st2 : Store)
    (resp resp2 : Response) (cart : Cart.t) (lines : list CartLine)
    (fl : Faults) (body : Notification) :
  checkout snap now newId userId st = (resp, st') ->
  res_status resp = 201%N ->
  Cart_findOne userId st = Some (cart, lines) ->
  List.find (ref_matches (make_orderId now userId)) (orders st) = None ->
  order_id body = Some (make_orderId now userId) ->
  handlePaymentNotification fl body st' = (resp2, st2) ->
  res_status resp2 = 200%N ->
  exists order,
    List.find (ref_matches (make_orderId now userId)) (orders st2)
    = Some order
    /\ Order.id order = newId
    /\ Order.userId order = userId
    /\ Order.status order = target_status body
    /\ Order.orderItems order = flat_map snapshot_line lines.
Proof.
  intros H Hs Hc Hfresh Hid H2 Hs2.
  destruct (checkout_201_store _ _ _ _ _ _ _ H Hs)
    as (user & cart' & lines' & pay & _ & Hc' & _ & _ & _ & ->).
  rewrite Hc in Hc'. injection Hc' as <- <-.
  destruct (handlePaymentNotification_200 _ _ _ _ _ H2 Hs2)
    as (ref & order & Hid' & Hfind & _ & ->).
  rewrite Hid in Hid'. injection Hid' as <-.
  cbn [orders] in Hfind.
  rewrite (find_app_miss _ _ _ Hfresh) in Hfind. simpl in Hfind.
  rewrite (ref_matches_refl (make_orderId now userId)) in Hfind by done.
  injection Hfind as <-.
  set (order := Order.mk newId userId _ pending _ _ None None None).
  exists (update_order body (target_status body) order).
  pose proof (update_order_frame body (target_status body) order)
    as (Ei & Eu & _ & Er & Eo).
  pose proof (update_order_writes body (target_status body) order)
    as (Es & _).
  split; [|by repeat split].
  cbn [orders with_orders]. apply (find_put_row _ order); [|done|done].
  rewrite (find_app_miss _ _ _ Hfresh). simpl.
  by rewrite (ref_matches_refl (make_orderId now userId) order).
Qed.

Lemma checkout_then_notification_witness :
  exists order,
    List.find (ref_matches (make_orderId 1000 1))
      (orders (snd (handlePaymentNotification no_faults
                      (Shop.notification "expire") Shop.after_checkout)))
    = Some order
    /\ Order.id order = 1%N
    /\ Order.userId order = 1%N
    /\ Order.status order = target_status (Shop.notification "expire")
    /\ Order.orderItems order
       = flat_map snapshot_line
           [mkLine Shop.three_widgets (Some Shop.widget)].
Proof.
  exact (checkout_then_notification Shop.accepting_gateway 1000 1 1
           Shop.open_shop Shop.after_checkout
           (snd (handlePaymentNotification no_faults
                   (Shop.notification "expire") Shop.after_checkout))
           (fst (checkout Shop.accepting_gateway 1000 1 1 Shop.open_shop))
           (fst (handlePaymentNotification no_faults
                   (Shop.notification "expire") Shop.after_checkout))
           (Cart.mk 1 1) [mkLine Shop.three_widgets (Some Shop.widget)]
           no_faults (Shop.notification "expire")
           eq_refl eq_refl eq_refl eq_refl eq_refl eq_refl eq_refl).
Defined.

(** *** Stock stays non-negative *)

(** The lines [Cart.findOne] returns carry the products of the table. *)
Lemma Cart_findOne_loaded userId st cart lines :
  Cart_findOne userId st = Some (cart, lines) ->
  Forall (fun l => product l = products st !! CartItem.productId (item l))
    lines.
Proof.
  unfold Cart_findOne.
  destruct (List.find _ (carts st)) as [c|]; [|done].
  intros [= _ <-]. apply Forall_forall. intros l Hl.
  apply list_elem_of_In, in_map_iff in Hl as (it & <- & _). done.
Qed.

Lemma reserved_absent (st : Store) pid lines :
  products_keyed st ->
  Forall (fun l => product l = products st !! CartItem.productId (item l))
    lines ->
  ~ In pid (List.map (fun l => CartItem.productId (item l)) lines) ->
  reserved pid lines = 0%Z.
Proof.
  intros Hk. induction lines as [|l lines IH]; [done|].
  intros Hl Hnot. apply Forall_cons in Hl as [Hl Hls]. simpl in Hnot.
  cbv beta in Hl. simpl. rewrite (IH Hls) by tauto.
  destruct (product l) as [p|] eqn:Hp; [|done].
  symmetry in Hl. apply Hk in Hl.
  destruct (N.eqb_spec (Product.id p) pid); [|done].
  exfalso. apply Hnot. left. congruence.
Qed.

(** With one line a product, no product is asked for more than its stock. *)
Lemma reserved_within_stock (st : Store) pid p lines :
  products_keyed st ->
  Forall (fun l => product l = products st !! CartItem.productId (item l))
    lines ->
  forallb line_ok lines = true ->
  List.NoDup (List.map (fun l => CartItem.productId (item l)) lines) ->
  products st !! pid = Some p ->
  (0 <= Product.stock p)%Z ->
  (reserved pid lines <= Product.stock p)%Z.
Proof.
  intros Hk. induction lines as [|l lines IH]; [simpl; intros; lia|].
  intros Hl [Hok Hoks]%andb_true_iff Hnd Hp Hpos.
  apply Forall_cons in Hl as [Hl Hls]. cbv beta in Hl.
  simpl in Hnd. apply List.NoDup_cons_iff in Hnd as [Hnot Hnd].
  destruct (line_ok_true _ Hok) as (q & Hq & Hs).
  simpl. rewrite Hq.
  rewrite Hq in Hl. symmetry in Hl. pose proof (Hk _ _ Hl) as Hid.
  destruct (N.eqb_spec (Product.id q) pid) as [E|E].
  - rewrite (reserved_absent st pid lines Hk Hls) by congruence.
    assert (q = p) as -> by congruence. lia.
  - by apply IH.
Qed.

(** X7.  On a product table keyed by its ids, a checkout of a cart with at
    most one line a product that answers 201 keeps every stock non-negative
    when it was so before. *)
Theorem checkout_keeps_stock_nonnegative
    (snap : Snap) (now newId userId : N) (st st' : Store) (resp : Response)
    (cart : Cart.t) (lines : list CartLine) :
  checkout snap now newId userId st = (resp, st') ->
  res_status resp = 201%N ->
  Cart_findOne userId st = Some (cart, lines) ->
  products_keyed st ->
  List.NoDup (List.map (fun l => CartItem.productId (item l)) lines) ->
  (forall k p, products st !! k = Some p -> (0 <= Product.stock p)%Z) ->
  forall k p', products st' !! k = Some p' -> (0 <= Product.stock p')%Z.
Proof.
  intros H Hs Hc Hk Hnd Hpos k p' Hp'.
  destruct (checkout_201_store _ _ _ _ _ _ _ H Hs)
    as (user & cart' & lines' & pay & _ & Hc' & _ & Hok & _ & ->).
  rewrite Hc in Hc'. injection Hc' as <- <-.
  simpl in Hp'. rewrite reserve_all_lookup in Hp'.
  destruct (products st !! k) as [p|] eqn:Hp; [|done].
  injection Hp' as <-. simpl.
  pose proof (reserved_within_stock st k p lines Hk
                (Cart_findOne_loaded _ _ _ _ Hc) Hok Hnd Hp (Hpos _ _ Hp)).
  lia.
Qed.

Lemma open_shop_keyed : products_keyed Shop.open_shop.
Proof.
  apply (bool_decide_unpack
           (map_Forall (fun k p => Product.id p = k)
              (products Shop.open_shop))).
  vm_compute. exact I.
Qed.

Lemma open_shop_stocked k p :
  products Shop.open_shop !! k = Some p -> (0 <= Product.stock p)%Z.
Proof.
  revert k p.
  apply (bool_decide_unpack
           (map_Forall (fun (k : N) p => (0 <= Product.stock p)%Z)
              (products Shop.open_shop))).
  vm_compute. exact I.
Qed.

Lemma checkout_keeps_stock_nonnegative_witness :
  match products Shop.after_checkout !! 1%N with
  | Some p' => (0 <= Product.stock p')%Z
  | None => True
  end.
Proof.
  destruct (products Shop.after_checkout !! 1%N) as [p'|] eqn:E; [|exact I].
  refine (checkout_keeps_stock_nonnegative Shop.accepting_gateway 1000 1 1
            Shop.open_shop Shop.after_checkout
            (fst (checkout Shop.accepting_gateway 1000 1 1 Shop.open_shop))
            (Cart.mk 1 1) [mkLine Shop.three_widgets (Some Shop.widget)]
            eq_refl eq_refl eq_refl open_shop_keyed _ open_shop_stocked
            1%N p' E).
  apply List.NoDup_cons; [intros [] | apply List.NoDup_nil].
Defined.

(** ** More on the webhook *)

(** X8.  The middleware lets a payload through to the handler exactly when
    its four fields are present and non-empty and its signature is the keyed
    hash; every other payload is answered by the middleware itself. *)
Theorem authenticateWebhook_accepts
    (sha512_hex : string -> string) (key : string) (body : Notification) :
  authenticateWebhook sha512_hex key body = Next <->
  fields_present body = true /\ signature_valid sha512_hex key body = true.
Proof.
  split.
  - intros H. destruct (signature_valid sha512_hex key body) eqn:V.
    + split; [|done]. destruct (fields_present body) eqn:P; [done|].
      unfold authenticateWebhook in H.
      by rewrite (fields_present_false _ P) in H.
    + by rewrite (authenticateWebhook_bad_signature _ _ _ V) in H.
  - intros [P V]. unfold authenticateWebhook.
    by rewrite (fields_present_true _ P), verifySignature_signature_valid, V.
Qed.

(** X9.  A notification that is not answered 200 has changed no order row,
    no user, no cart and no cart item; it has changed the product table only
    if it is of the cancel class and the saving of the order failed after the
    stock release.  An answer is 200, 404 or 500, and it is 404 only when the
    lookup worked and found no order under the reference. *)
Theorem unanswered_notification_frame
    (fl : Faults) (body : Notification) (st : Store) :
  let resp := fst (handlePaymentNotification fl body st) in
  let st' := snd (handlePaymentNotification fl body st) in
  (res_status resp = 200%N \/ res_status resp = 404%N
   \/ res_status resp = 500%N)
  /\ (res_status resp = 404%N ->
      st' = st
      /\ Order_findOne_throws fl = false
      /\ exists ref, order_id body = Some ref
                     /\ List.find (ref_matches ref) (orders st) = None)
  /\ (res_status resp <> 200%N ->
      orders st' = orders st /\ users st' = users st
      /\ carts st' = carts st /\ cartItems st' = cartItems st
      /\ (products st' <> products st ->
          cancel_class body = true /\ Order_save_throws fl = true)).
Proof.
  cbv zeta. unfold handlePaymentNotification, Order_findOne.
  destruct (Order_findOne_throws fl); [simpl; repeat split; auto; done|].
  destruct (order_id body) as [ref|]; [|simpl; repeat split; auto; done].
  destruct (List.find (ref_matches ref) (orders st)) as [order|] eqn:F.
  2:{ simpl. repeat split; auto; try done. by exists ref. }
  rewrite status_cascade_table.
  destruct (cancel_class body) eqn:C.
  - destruct (sequelize_transaction_throws fl);
      [simpl; repeat split; auto; done|].
    unfold Order_save. destruct (Order_save_throws fl); simpl.
    + repeat split; auto; done.
    + repeat split; auto; done.
  - unfold Order_save. destruct (Order_save_throws fl); simpl.
    + repeat split; auto; done.
    + repeat split; auto; done.
Qed.

(** ** Repeated delivery and the stock release *)

(** What one delivery does to the tables, whatever throws: the order rows
    stay, or the row of the order found is saved; nothing else is written. *)
Lemma handlePaymentNotification_tables fl body st :
  (orders (snd (handlePaymentNotification fl body st)) = orders st
   \/ exists ref order,
        order_id body = Some ref
        /\ List.find (ref_matches ref) (orders st) = Some order
        /\ orders (snd (handlePaymentNotification fl body st))
           = List.map (put_row (update_order body (target_status body) order))
               (orders st))
  /\ users (snd (handlePaymentNotification fl body st)) = users st
  /\ products (snd (handlePaymentNotification fl body st)) = products st
  /\ carts (snd (handlePaymentNotification fl body st)) = carts st
  /\ cartItems (snd (handlePaymentNotification fl body st)) = cartItems st.
Proof.
  unfold handlePaymentNotification, Order_findOne.
  destruct (Order_findOne_throws fl); [by split; [left|]|].
  destruct (order_id body) as [ref|]; [|by split; [left|]].
  destruct (List.find (ref_matches ref) (orders st)) as [order|] eqn:F;
    [|by split; [left|]].
  rewrite status_cascade_table. unfold Order_save.
  destruct (cancel_class body) eqn:C.
  - destruct (sequelize_transaction_throws fl); [by split; [left|]|].
    destruct (Order_save_throws fl); [by split; [left|]|].
    split; [|done]. right. exists ref, order.
    by rewrite (cancel_class_target _ C).
  - destruct (Order_save_throws fl); [by split; [left|]|].
    split; [|done]. right. by exists ref, order.
Qed.

Lemma deliveries_cons fl fls body s :
  deliveries (fl :: fls) body s
  = deliveries fls body (snd (handlePaymentNotification fl body s)).
Proof. reflexivity. Qed.

(** Once a notification has been saved, delivering it again leaves the
    order rows as they are. *)
Lemma deliveries_orders fls body s ref order rows :
  order_id body = Some ref ->
  List.find (ref_matches ref) rows = Some order ->
  orders s
  = List.map (put_row (update_order body (target_status body) order)) rows ->
  orders (deliveries fls body s) = orders s.
Proof.
  intros Hid Hfind.
  set (order' := update_order body (target_status body) order).
  pose proof (update_order_frame body (target_status body) order)
    as (Ei & _ & _ & Er & _).
  fold order' in Ei, Er.
  revert s. induction fls as [|fl fls IH]; intros s Hs; [done|].
  rewrite deliveries_cons.
  assert (orders (snd (handlePaymentNotification fl body s)) = orders s)
    as Hstep.
  { destruct (handlePaymentNotification_tables fl body s)
      as [[E|(ref0 & o & Hid0 & F & E)] _]; [done|].
    rewrite E. rewrite Hid in Hid0. injection Hid0 as <-.
    rewrite Hs in F.
    rewrite (find_put_row ref order order' _ Hfind Ei Er) in F.
    injection F as <-.
    assert (update_order body (target_status body) order' = order') as ->
      by apply update_order_idem.
    rewrite Hs. apply put_row_twice. }
  rewrite IH; [done|]. by rewrite Hstep.
Qed.

Lemma deliveries_tables fls body s :
  users (deliveries fls body s) = users s
  /\ products (deliveries fls body s) = products s
  /\ carts (deliveries fls body s) = carts s
  /\ cartItems (deliveries fls body s) = cartItems s.
Proof.
  revert s. induction fls as [|fl fls IH]; intros s; [done|].
  rewrite deliveries_cons.
  destruct (IH (snd (handlePaymentNotification fl body s)))
    as (-> & -> & -> & ->).
  by destruct (handlePaymentNotification_tables fl body s) as [_ H].
Qed.

(** X10.  Once a notification has been answered 200, delivering it again,
    any number of times and whatever storage calls fail in these
    deliveries, changes no order row; and no delivery writes the tables of
    users, products, carts and cart items. *)
Theorem redelivery
    (fl : Faults) (fls : list Faults) (body : Notification)
    (st st1 : Store) (resp : Response) :
  handlePaymentNotification fl body st = (resp, st1) ->
  res_status resp = 200%N ->
  orders (deliveries fls body st1) = orders st1
  /\ users (deliveries fls body st1) = users st
  /\ products (deliveries fls body st1) = products st
  /\ carts (deliveries fls body st1) = carts st
  /\ cartItems (deliveries fls body st1) = cartItems st.
Proof.
  intros H Hs.
  pose proof (handlePaymentNotification_tables fl body st) as [_ Ht].
  rewrite H in Ht. cbn [snd] in Ht. destruct Ht as (Eu & Ep & Ec & Ei).
  destruct (deliveries_tables fls body st1) as (-> & -> & -> & ->).
  split; [|done].
  destruct (handlePaymentNotification_200 _ _ _ _ _ H Hs)
    as (ref & order & Hid & Hfind & _ & ->).
  by apply (deliveries_orders fls body _ ref order (orders st)).
Qed.

Lemma redelivery_witness :
  orders (deliveries [Shop.products_read_only; no_faults]
            (Shop.notification "expire")
            (snd (handlePaymentNotification no_faults
                    (Shop.notification "expire") Shop.after_checkout)))
  = orders (snd (handlePaymentNotification no_faults
                   (Shop.notification "expire") Shop.after_checkout)).
Proof.
  exact (proj1 (redelivery no_faults [Shop.products_read_only; no_faults]
                  (Shop.notification "expire") Shop.after_checkout
                  (snd (handlePaymentNotification no_faults
                          (Shop.notification "expire") Shop.after_checkout))
                  (fst (handlePaymentNotification no_faults
                          (Shop.notification "expire") Shop.after_checkout))
                  eq_refl eq_refl)).
Defined.




(** ** Time spent sleeping in the gateway client *)

Lemma total_sleep_schedule i k :
  (0 <= total_sleep (schedule i k) <= 5000 * Z.of_nat k)%Z.
Proof.
  revert i. induction k as [|k IH]; intros i.
  - unfold total_sleep. simpl. lia.
  - specialize (IH (S i)). unfold total_sleep in *. simpl.
    pose proof (delay_le i). unfold delay in *. lia.
Qed.

(** X12.  The gateway client never sleeps after its last attempt: a run of
    [k] attempts has slept [k - 1] times, each time at most 5 s; under the
    default bound of 3 attempts a run sleeps at most 3 s in all, and a run
    whose first attempt is accepted does not sleep. *)
Theorem createTransactionWithRetry_sleep (snap : Snap) (maxRetries : nat) :
  let evs := snd (createTransactionWithRetry snap maxRetries) in
  length (sleeps evs) = calls evs - 1
  /\ (0 <= total_sleep evs <= 5000 * Z.of_nat (maxRetries - 1))%Z
  /\ (total_sleep (snd (createTransactionWithRetry snap default_maxRetries))
      <= 3000)%Z
  /\ ((exists r, snap 0 = SnapOk r) -> 0 < maxRetries -> sleeps evs = []).
Proof.
  cbv zeta.
  assert (forall n,
            exists k, (n = 0 /\ snd (createTransactionWithRetry snap n) = []
                       \/ k < n /\ snd (createTransactionWithRetry snap n)
                                   = schedule 0 k)) as Hshape.
  { intros n.
    destruct (createTransactionWithRetry_outcome snap n)
      as [[m E]|(k & r & [Hk _] & E)]; rewrite E; simpl.
    - destruct n as [|n']; [exists 0; by left | exists n'; right; split; [lia|done]].
    - exists k. by right. }
  split; [|split; [|split]].
  - destruct (Hshape maxRetries) as [k [[_ ->]|[_ ->]]]; [done|].
    rewrite sleeps_schedule, calls_schedule, length_map, length_seq. lia.
  - destruct (Hshape maxRetries) as [k [[-> ->]|[Hk ->]]].
    + unfold total_sleep. simpl. lia.
    + pose proof (total_sleep_schedule 0 k). lia.
  - destruct (Hshape default_maxRetries) as [k [[_ ->]|[Hk ->]]].
    + unfold total_sleep. simpl. lia.
    + unfold default_maxRetries in Hk.
      destruct k as [|[|[|k]]]; [vm_compute; discriminate..|lia].
  - intros [r Hr] Hpos. unfold createTransactionWithRetry.
    destruct maxRetries as [|n]; [lia|]. simpl. by rewrite Hr.
Qed.

(** ** Cart controller *)

Lemma put_item_id e it : CartItem.id (put_item e it) = CartItem.id it.
Proof.
  unfold put_item.
  destruct (N.eqb_spec (CartItem.id it) (CartItem.id e)); congruence.
Qed.

Lemma map_put_item_ids e (items : list CartItem.t) :
  List.map CartItem.id (List.map (put_item e) items)
  = List.map CartItem.id items.
Proof.
  rewrite List.map_map. apply List.map_ext. intros it. apply put_item_id.
Qed.

(** With item ids unique, saving an item rewrites that one row. *)
Lemma put_item_absent e (items : list CartItem.t) :
  ~ In (CartItem.id e) (List.map CartItem.id items) ->
  List.map (put_item e) items = items.
Proof.
  induction items as [|h t IH]; [done|]. simpl. intros Hnot.
  rewrite IH by tauto. f_equal. unfold put_item.
  destruct (N.eqb_spec (CartItem.id h) (CartItem.id e)) as [E|]; [|done].
  exfalso. apply Hnot. by left.
Qed.

Lemma put_item_unique e e' (items : list CartItem.t) :
  List.NoDup (List.map CartItem.id items) ->
  In e items ->
  CartItem.id e' = CartItem.id e ->
  exists pre post,
    items = (pre ++ e :: post)%list
    /\ List.map (put_item e') items = (pre ++ e' :: post)%list.
Proof.
  intros Hnd Hin Hid.
  destruct (in_split _ _ Hin) as (pre & post & ->).
  exists pre, post. split; [done|].
  rewrite List.map_app in Hnd. simpl in Hnd.
  pose proof (List.NoDup_remove_2 _ _ _ Hnd) as Hnot.
  rewrite List.in_app_iff in Hnot.
  rewrite List.map_app. simpl.
  rewrite !put_item_absent by (rewrite Hid; tauto).
  unfold put_item. by rewrite Hid, N.eqb_refl.
Qed.

Lemma line_quantity_app c p (a b : list CartItem.t) :
  line_quantity c p (a ++ b)
  = (line_quantity c p a + line_quantity c p b)%Z.
Proof.
  induction a as [|h a IH]; simpl; [done|].
  destruct (_ && _); lia.
Qed.

(** Everything an [addItemToCart] that answers 200 has done. *)
Lemma addItemToCart_200 validated newCartId newItemId userId st resp st' :
  addItemToCart validated newCartId newItemId userId st = (resp, st') ->
  res_status resp = 200%N ->
  exists pid q p cart,
    validated = Ok (pid, q)
    /\ pid <> 0%N /\ (1 <= q)%Z
    /\ products st !! pid = Some p /\ (q <= Product.stock p)%Z
    /\ (Cart_findByUser userId st = Some cart /\ carts st' = carts st
        \/ Cart_findByUser userId st = None
           /\ cart = Cart.mk newCartId userId
           /\ carts st' = (carts st ++ [cart])%list)
    /\ cartItems st'
       = match CartItem_findOne (Cart.id cart) pid st with
         | Some e =>
             List.map
               (put_item (set_quantity e (CartItem.quantity e + q)))
               (cartItems st)
         | None =>
             (cartItems st ++ [CartItem.mk newItemId (Cart.id cart) pid q])%list
         end
    /\ users st' = users st /\ products st' = products st
    /\ orders st' = orders st.
Proof.
  unfold addItemToCart.
  destruct validated as [[pid q]|e]; [|by intros [= <- <-]].
  destruct (N.eqb_spec pid 0) as [->|Hpid]; [by intros [= <- <-]|].
  destruct (Z.eqb_spec q 0) as [->|Hq0]; [by intros [= <- <-]|].
  destruct (Z.ltb_spec q 1) as [Hlt|Hq]; [by intros [= <- <-]|].
  simpl orb. cbv iota.
  destruct (products st !! pid) as [p|] eqn:Hp; [|by intros [= <- <-]].
  destruct (Z.ltb_spec (Product.stock p) q) as [Hs|Hs]; [by intros [= <- <-]|].
  destruct (Cart_findByUser userId st) as [cart|] eqn:Hc.
  - intros [= <- <-] _. exists pid, q, p, cart.
    repeat split; try done; try lia.
    + left. split; [done|].
      unfold CartItem_findOne. by destruct (List.find _ (cartItems st)).
    + unfold CartItem_findOne, CartItem_save.
      by destruct (List.find _ (cartItems st)).
    + unfold CartItem_findOne. by destruct (List.find _ (cartItems st)).
    + unfold CartItem_findOne. by destruct (List.find _ (cartItems st)).
    + unfold CartItem_findOne. by destruct (List.find _ (cartItems st)).
  - intros [= <- <-] _. exists pid, q, p, (Cart.mk newCartId userId).
    repeat split; try done; try lia.
    + right. repeat split; try done.
      unfold CartItem_findOne. simpl.
      by destruct (List.find _ (cartItems st)).
    + unfold CartItem_findOne, CartItem_save. simpl.
      by destruct (List.find _ (cartItems st)).
    + unfold CartItem_findOne. simpl. by destruct (List.find _ (cartItems st)).
    + unfold CartItem_findOne. simpl. by destruct (List.find _ (cartItems st)).
    + unfold CartItem_findOne. simpl. by destruct (List.find _ (cartItems st)).
Qed.


(** X14.  With item ids unique, an [addItemToCart] that answers 200 raises
    what the customer's cart holds of the product by exactly the quantity
    added, and leaves what any cart holds of any other product, and what any
    other cart holds, as it was; the customer has a cart afterwards. *)
Theorem addItemToCart_adds
    (newCartId newItemId userId pid : N) (q : Z) (st st' : Store)
    (resp : Response) :
  addItemToCart (Ok (pid, q)) newCartId newItemId userId st = (resp, st') ->
  res_status resp = 200%N ->
  List.NoDup (List.map CartItem.id (cartItems st)) ->
  exists cart,
    Cart_findByUser userId st' = Some cart
    /\ line_quantity (Cart.id cart) pid (cartItems st')
       = (line_quantity (Cart.id cart) pid (cartItems st) + q)%Z
    /\ forall c p,
         (c, p) <> (Cart.id cart, pid) ->
         line_quantity c p (cartItems st') = line_quantity c p (cartItems st).
Proof.
  intros E Hs Hnd.
  destruct (addItemToCart_200 _ _ _ _ _ _ _ E Hs)
    as (pid' & q' & p & cart & [= <- <-] & _ & _ & _ & _ & Hcart & Hitems & _).
  exists cart. split.
  { unfold Cart_findByUser in *.
    destruct Hcart as [[Hc ->]|(Hc & -> & ->)]; [done|].
    rewrite (find_app_miss _ _ _ Hc). simpl. by rewrite N.eqb_refl. }
  rewrite Hitems. unfold CartItem_findOne.
  destruct (List.find _ (cartItems st)) as [e|] eqn:F.
  - apply List.find_some in F as [Hin [Ec Ep]%andb_true_iff].
    apply N.eqb_eq in Ec, Ep.
    destruct (put_item_unique e
                (set_quantity e (CartItem.quantity e + q)) _ Hnd Hin eq_refl)
      as (pre & post & Hsplit & ->).
    rewrite Hsplit, !line_quantity_app. simpl.
    split.
    + rewrite Ec, Ep, !N.eqb_refl. simpl. lia.
    + intros c p0 Hne.
      rewrite !line_quantity_app. simpl.
      destruct (N.eqb_spec (CartItem.cartId e) c) as [E1|]; [|done].
      destruct (N.eqb_spec (CartItem.productId e) p0) as [E2|]; [|done].
      congruence.
  - rewrite !line_quantity_app. simpl. split.
    + rewrite !N.eqb_refl. simpl.
      assert (line_quantity (Cart.id cart) pid (cartItems st) = 0%Z) as ->;
        [|lia].
      pose proof (List.find_none _ _ F) as Hnone.
      clear -Hnone. induction (cartItems st) as [|h t IH]; [done|].
      simpl. rewrite (Hnone h) by (by left).
      apply IH. intros x Hx. apply Hnone. by right.
    + intros c p0 Hne. rewrite !line_quantity_app. simpl.
      destruct (N.eqb_spec (Cart.id cart) c) as [E1|]; [|simpl; lia].
      destruct (N.eqb_spec pid p0) as [E2|]; [|simpl; lia].
      congruence.
Qed.

Lemma addItemToCart_refused validated newCartId newItemId userId st :
  res_status (fst (addItemToCart validated newCartId newItemId userId st))
  <> 200%N ->
  snd (addItemToCart validated newCartId newItemId userId st) = st.
Proof.
  unfold addItemToCart.
  destruct validated as [[pid q]|e]; [|done].
  destruct (_ || _); [done|].
  destruct (products st !! pid) as [p|]; [|done].
  destruct (_ <? _)%Z; [done|].
  destruct (Cart_findByUser userId st); simpl; done.
Qed.

Lemma NoDup_snoc {A} (l : list A) (x : A) :
  List.NoDup l -> ~ In x l -> List.NoDup (l ++ [x]).
Proof.
  intros Hl Hx. apply List.NoDup_app; [done | |].
  - apply List.NoDup_cons; [intros [] | apply List.NoDup_nil].
  - intros a Ha [<-|[]]. done.
Qed.

(** X15.  [addItemToCart] keeps the cart items well formed: when no two
    items have the same id, no two items are for the same cart and product,
    and the id given to a new item is fresh, the same holds after the call,
    whatever its arguments and its answer. *)
Theorem addItemToCart_keeps_lines_unique
    (validated : Result (N * Z)) (newCartId newItemId userId : N)
    (st : Store) :
  List.NoDup (List.map CartItem.id (cartItems st)) ->
  List.NoDup (List.map item_key (cartItems st)) ->
  ~ In newItemId (List.map CartItem.id (cartItems st)) ->
  List.NoDup
    (List.map CartItem.id
       (cartItems
          (snd (addItemToCart validated newCartId newItemId userId st))))
  /\ List.NoDup
       (List.map item_key
          (cartItems
             (snd (addItemToCart validated newCartId newItemId userId st)))).
Proof.
  intros Hids Hkeys Hfresh.
  destruct (N.eq_dec
              (res_status
                 (fst (addItemToCart validated newCartId newItemId userId st)))
              200%N) as [Hs|Hs].
  2:{ by rewrite (addItemToCart_refused _ _ _ _ _ Hs). }
  destruct (addItemToCart validated newCartId newItemId userId st)
    as [resp st'] eqn:E. cbn [fst snd] in *.
  destruct (addItemToCart_200 _ _ _ _ _ _ _ E Hs)
    as (pid & q & p & cart & _ & _ & _ & _ & _ & _ & -> & _).
  unfold CartItem_findOne.
  destruct (List.find _ (cartItems st)) as [e|] eqn:F.
  - apply List.find_some in F as [Hin _].
    rewrite map_put_item_ids. split; [done|].
    destruct (put_item_unique e
                (set_quantity e (CartItem.quantity e + q)) _ Hids Hin eq_refl)
      as (pre & post & Hsplit & ->).
    rewrite Hsplit in Hkeys. by rewrite List.map_app in *.
  - pose proof (List.find_none _ _ F) as Hnone.
    rewrite !List.map_app. simpl. split.
    + by apply NoDup_snoc.
    + apply NoDup_snoc; [done|].
      intros Hin. apply List.in_map_iff in Hin as (it & Hk & Hit).
      specialize (Hnone it Hit). simpl in Hnone.
      unfold item_key in Hk. injection Hk as Hk1 Hk2.
      by rewrite Hk1, Hk2, !N.eqb_refl in Hnone.
Qed.

(** X16.  After an [updateCartItem] that answers 200 the customer's cart, as
    [checkout] loads it, has a line of the product with the new quantity
    that the reservation loop can serve; products, orders, users and carts
    are as before.  An answer other than 200 leaves the store as it was. *)
Theorem updateCartItem_line_servable
    (pid : N) (q : Z) (userId : N) (st : Store) :
  let resp := fst (updateCartItem pid q userId st) in
  let st' := snd (updateCartItem pid q userId st) in
  (res_status resp = 200%N ->
   exists cart lines l,
     Cart_findOne userId st' = Some (cart, lines)
     /\ In l lines
     /\ CartItem.productId (item l) = pid
     /\ CartItem.quantity (item l) = q
     /\ line_ok l = true)
  /\ (res_status resp <> 200%N -> st' = st)
  /\ products st' = products st /\ orders st' = orders st
  /\ users st' = users st /\ carts st' = carts st.
Proof.
  cbv zeta. unfold updateCartItem.
  destruct (_ || _); [simpl; repeat split; done|].
  destruct (Cart_findByUser userId st) as [cart|] eqn:Hc;
    [|simpl; repeat split; done].
  destruct (CartItem_findOne (Cart.id cart) pid st) as [e|] eqn:F;
    [|simpl; repeat split; done].
  destruct (products st !! pid) as [p|] eqn:Hp; [|simpl; repeat split; done].
  destruct (Z.ltb_spec (Product.stock p) q) as [Hs|Hs];
    [simpl; repeat split; done|].
  cbn [fst snd]. split; [|repeat split; done].
  intros _.
  apply List.find_some in F as [Hin [Ec Ep]%andb_true_iff].
  apply N.eqb_eq in Ec, Ep.
  exists cart, (List.map
                  (fun it => mkLine it (products st !! CartItem.productId it))
                  (List.filter
                     (fun it => N.eqb (CartItem.cartId it) (Cart.id cart))
                     (List.map (put_item (set_quantity e q)) (cartItems st)))),
    (mkLine (set_quantity e q) (Some p)).
  split; [|split; [|split; [|split]]].
  - unfold Cart_findOne, Cart_findByUser in *. simpl. by rewrite Hc.
  - apply List.in_map_iff. exists (set_quantity e q). split.
    + simpl. by rewrite Ep, Hp.
    + apply List.filter_In. split.
      * apply List.in_map_iff. exists e. split; [|done].
        unfold put_item. simpl. by rewrite N.eqb_refl.
      * simpl. rewrite Ec. apply N.eqb_refl.
  - done.
  - done.
  - unfold line_ok. simpl. apply negb_true_iff. by apply Z.ltb_ge.
Qed.

(** X17.  With at most one item for a cart and product, a [removeFromCart]
    that answers 200 leaves no item of the product in the customer's cart,
    so that removing it again is answered 404 and changes nothing; items
    with another id stay as they are, and products, orders, users and carts
    are not touched.  An answer other than 200 leaves the store as it was. *)
Theorem removeFromCart_removes (pid userId : N) (st : Store) :
  List.NoDup (List.map item_key (cartItems st)) ->
  let resp := fst (removeFromCart pid userId st) in
  let st' := snd (removeFromCart pid userId st) in
  (res_status resp = 200%N ->
   exists cart e,
     Cart_findByUser userId st = Some cart
     /\ CartItem_findOne (Cart.id cart) pid st = Some e
     /\ cartItems st'
        = List.filter
            (fun it => negb (N.eqb (CartItem.id it) (CartItem.id e)))
            (cartItems st)
     /\ CartItem_findOne (Cart.id cart) pid st' = None
     /\ removeFromCart pid userId st'
        = (json_message 404 "Item not found in cart", st'))
  /\ (res_status resp <> 200%N -> st' = st)
  /\ products st' = products st /\ orders st' = orders st
  /\ users st' = users st /\ carts st' = carts st.
Proof.
  intros Hkeys. cbv zeta.
  destruct (removeFromCart pid userId st) as [resp st'] eqn:E.
  cbn [fst snd]. revert E. unfold removeFromCart at 1.
  destruct (Cart_findByUser userId st) as [cart|] eqn:Hc;
    [|intros [= <- <-]; split; [intros H; discriminate H | repeat split; done]].
  destruct (CartItem_findOne (Cart.id cart) pid st) as [e|] eqn:F;
    [|intros [= <- <-]; split; [intros H; discriminate H | repeat split; done]].
  intros [= <- <-]. split; [|repeat split; done].
  intros _. exists cart, e.
  assert (CartItem_findOne (Cart.id cart) pid (CartItem_destroy e st) = None)
    as Hgone.
  { unfold CartItem_findOne in *. simpl.
    destruct (List.find _ (List.filter _ (cartItems st))) as [x|] eqn:G;
      [|done].
    exfalso.
    apply List.find_some in F as [He [Ec Ep]%andb_true_iff].
    apply List.find_some in G as [Hx [Xc Xp]%andb_true_iff].
    apply List.filter_In in Hx as [Hx Hid].
    apply N.eqb_eq in Ec, Ep, Xc, Xp.
    assert (x = e) as ->; [|by rewrite N.eqb_refl in Hid].
    assert (item_key x = item_key e) as Hk
      by (unfold item_key; congruence).
    clear -Hkeys He Hx Hk.
    induction (cartItems st) as [|h t IH]; [done|].
    simpl in Hkeys. apply List.NoDup_cons_iff in Hkeys as [Hnot Hnd].
    destruct He as [->|He], Hx as [->|Hx]; try done.
    - exfalso. apply Hnot. rewrite <- Hk. by apply List.in_map.
    - exfalso. apply Hnot. rewrite Hk. by apply List.in_map.
    - by apply IH. }
  repeat split; try done.
  unfold removeFromCart. unfold Cart_findByUser in *. simpl.
  rewrite Hc. by rewrite Hgone.
Qed.

Lemma NoDup_one {A} (x : A) : List.NoDup [x].
Proof. apply List.NoDup_cons; [intros [] | apply List.NoDup_nil]. Qed.

Lemma addItemToCart_adds_witness :
  exists cart,
    Cart_findByUser 1
      (snd (addItemToCart (Ok (1%N, 2%Z)) 9 9 1 Shop.open_shop)) = Some cart
    /\ line_quantity (Cart.id cart) 1
         (cartItems (snd (addItemToCart (Ok (1%N, 2%Z)) 9 9 1 Shop.open_shop)))
       = (line_quantity (Cart.id cart) 1 (cartItems Shop.open_shop) + 2)%Z.
Proof.
  destruct (addItemToCart_adds 9 9 1 1 2 Shop.open_shop
              (snd (addItemToCart (Ok (1%N, 2%Z)) 9 9 1 Shop.open_shop))
              (fst (addItemToCart (Ok (1%N, 2%Z)) 9 9 1 Shop.open_shop))
              eq_refl eq_refl (NoDup_one _)) as (cart & H1 & H2 & _).
  exists cart. split; [exact H1 | exact H2].
Defined.

Lemma addItemToCart_keeps_lines_unique_witness :
  List.NoDup
    (List.map CartItem.id
       (cartItems (snd (addItemToCart (Ok (2%N, 1%Z)) 9 9 1 Shop.open_shop))))
  /\ List.NoDup
       (List.map item_key
          (cartItems
             (snd (addItemToCart (Ok (2%N, 1%Z)) 9 9 1 Shop.open_shop)))).
Proof.
  refine (addItemToCart_keeps_lines_unique (Ok (2%N, 1%Z)) 9 9 1
            Shop.open_shop (NoDup_one _) (NoDup_one _) _).
  simpl. intros [H|[]]. discriminate H.
Defined.

Lemma removeFromCart_removes_witness :
  cartItems (snd (removeFromCart 1 1 Shop.open_shop)) = []
  /\ removeFromCart 1 1 (snd (removeFromCart 1 1 Shop.open_shop))
     = (json_message 404 "Item not found in cart",
        snd (removeFromCart 1 1 Shop.open_shop)).
Proof.
  destruct (removeFromCart_removes 1 1 Shop.open_shop (NoDup_one _))
    as [H _].
  destruct (H eq_refl) as (cart & e & Hc & He & H1 & _ & H2).
  split; [|exact H2].
  rewrite H1. vm_compute in Hc. injection Hc as <-.
  vm_compute in He. injection He as <-. reflexivity.
Defined.

(** ** Order status for the customer *)

Lemma Order_findOwn_Some orderId userId st o :
  Order_findOwn orderId userId st = Some o ->
  In o (orders st) /\ Order.id o = orderId /\ Order.userId o = userId.
Proof.
  unfold Order_findOwn. intros H.
  apply List.find_some in H as [Hin [Hi Hu]%andb_true_iff].
  by apply N.eqb_eq in Hi, Hu.
Qed.

Lemma Order_findOwn_None orderId userId st :
  Order_findOwn orderId userId st = None <->
  forall o, In o (orders st) -> Order.id o = orderId ->
            Order.userId o <> userId.
Proof.
  unfold Order_findOwn. split.
  - intros H o Hin Hid Hu.
    pose proof (List.find_none _ _ H o Hin) as Hf. simpl in Hf.
    by rewrite Hid, Hu, !N.eqb_refl in Hf.
  - intros H.
    destruct (List.find _ (orders st)) as [o|] eqn:F; [|done].
    apply List.find_some in F as [Hin [Hi Hu]%andb_true_iff].
    apply N.eqb_eq in Hi, Hu. by destruct (H o Hin Hi).
Qed.

(** X18.  [getOrderStatus] shows a customer only orders of that customer:
    an answer with order data carries the data of a row with the asked id
    that belongs to the customer, and the answer is 404 exactly when there is
    no such row, be the id unknown or another customer's.  For an order with
    a payment reference a failing status query at the gateway does not fail
    the request: the answer carries the same order data, without the
    gateway's status and with a warning instead. *)
Theorem getOrderStatus_answers
    (get : string -> Result MidtransStatus.t) (orderId userId : N)
    (st : Store) :
  (forall message view ms w,
     getOrderStatus get orderId userId st = StatusOrder message view ms w ->
     exists o, In o (orders st) /\ Order.id o = orderId
               /\ Order.userId o = userId /\ view = order_view o)
  /\ (getOrderStatus get orderId userId st
      = StatusMessage 404 "Order not found" <->
      forall o, In o (orders st) -> Order.id o = orderId ->
                Order.userId o <> userId)
  /\ (forall order,
        Order_findOwn orderId userId st = Some order ->
        truthy (Order.midtransPaymentId order) = true ->
        exists message ms w,
          getOrderStatus get orderId userId st
          = StatusOrder message (order_view order) ms w
          /\ match get (template (Order.midtransPaymentId order)) with
             | Ok data => ms = Some data /\ w = None
             | Threw _ =>
                 ms = None
                 /\ w = Some "Unable to fetch real-time status from Midtrans"
             end).
Proof.
  split; [|split].
  - intros message view ms w. unfold getOrderStatus.
    destruct (Order_findOwn orderId userId st) as [o|] eqn:F; [|done].
    apply Order_findOwn_Some in F as (Hin & Hi & Hu).
    destruct (truthy (Order.midtransPaymentId o)); [|done].
    destruct (getTransactionStatus get _); intros [= _ <- _ _]; by exists o.
  - rewrite <- Order_findOwn_None. unfold getOrderStatus.
    destruct (Order_findOwn orderId userId st) as [o|]; [|done].
    split; [|done].
    destruct (truthy (Order.midtransPaymentId o)); [|done].
    by destruct (getTransactionStatus get _).
  - intros order F Ht. unfold getOrderStatus, getTransactionStatus.
    rewrite F, Ht.
    destruct (get (template (Order.midtransPaymentId order)));
      by eexists _, _, _.
Qed.
